(** * Tubely upload handlers: a shallow embedding of [src/api/videos.ts] and
    [src/api/thumbnails.ts]

    The two request handlers and the aspect-ratio classifier are translated
    function by function.  Code that throws returns [Throw]; code that touches
    the disk, the bucket or the database threads a [World] through a small
    state-and-exception monad, so that the effects performed before a throw
    stay visible afterwards.  The numbers of the classifier are IEEE 754
    binary64 doubles, with the rounding of each operation; the sizes the
    handlers compare are integers.  The collaborators the handlers import but whose
    code is elsewhere (token validation, database layer, asset helpers, the
    JSON parser and the [ffprobe] executable) form the interface [Platform]. *)

From Stdlib Require Import ZArith String List Lia.
From Corelib Require Import SpecFloat.
From stdpp Require Import gmap strings list fin_maps.

Open Scope string_scope.
Open Scope Z_scope.

(* ===================================================================== *)
(** ** JavaScript numbers and operators used by the sources               *)
(* ===================================================================== *)

(** [ToInt32]: the signed 32-bit reading of an integer, as the shift
    operators apply it to their operands. *)
Definition toInt32 (z : Z) : Z :=
  let m := z mod 2 ^ 32 in
  if m <? 2 ^ 31 then m else m - 2 ^ 32.

(** [a << b]: the left operand as an int32, the count taken modulo 32, the
    result wrapped to an int32 again. *)
Definition js_shl (a b : Z) : Z :=
  toInt32 (Z.shiftl (toInt32 a) (Z.land b 31)).

(** The numbers of the runtime are IEEE 754 binary64 doubles: here the
    [spec_float] of the standard library at precision 53 and maximal
    exponent 1024, whose operations round to nearest, ties to even.
    [binary64_of_Z n] is the double that [JSON.parse] gives for the integer
    [n] in the probe's output, and the double of the literals [16] and [9]:
    the nearest double, [n] itself up to 2^53. *)
Definition binary64_of_Z (n : Z) : spec_float :=
  binary_normalize 53 1024 n 0 false.

(** [Math.floor(x)]: the double of the greatest integer not above [x];
    zeros, infinities and NaN are returned as they are.  A finite double is
    [m * 2^e] with its sign; at an exponent [e >= 0] it is an integer. *)
Definition Math_floor (x : spec_float) : spec_float :=
  match x with
  | S754_finite s m e =>
      if 0 <=? e then x
      else binary64_of_Z ((if s then Zneg m else Zpos m) / 2 ^ (- e))
  | _ => x
  end.

(** [16 * (x / 9)] of [videos.ts] lines 111-112, with the two operations
    in the order of the source, each rounded. *)
Definition sixteen_ninths (x : spec_float) : spec_float :=
  SFmul 53 1024 (binary64_of_Z 16) (SFdiv 53 1024 x (binary64_of_Z 9)).

(** [Math.floor(16 * (n / 9))] for an integer [n], read as an integer:
    the integer as a double, divided by 9, multiplied by 16, and the floor
    of the result ([None] if it is not finite). *)
Definition binary64_floor (x : spec_float) : option Z :=
  match x with
  | S754_zero _ => Some 0
  | S754_finite s m e =>
      let z := if s then Zneg m else Zpos m in
      Some (if 0 <=? e then z * 2 ^ e else z / 2 ^ (- e))
  | S754_infinity _ | S754_nan => None
  end.

Definition floor_16_ninths_binary64 (n : Z) : option Z :=
  binary64_floor
    (SFmul 53 1024 (binary64_of_Z 16)
       (SFdiv 53 1024 (binary64_of_Z n) (binary64_of_Z 9))).

(* ===================================================================== *)
(** ** Thrown values                                                      *)
(* ===================================================================== *)

(** The error classes of [./errors] that the handlers import, the class the
    token validator raises for a bad credential, and the built-in errors. *)
Inductive Error : Type :=
| BadRequestError (msg : string)
| UserNotAuthenticatedError (msg : string)
| UserForbiddenError (msg : string)
| NotFoundError (msg : string)
| JsError (msg : string)          (* [new Error(msg)] *)
| SyntaxError (msg : string)      (* [JSON.parse] on text that is not JSON *)
| TypeError (msg : string)        (* a request body that is not form data *)
| SystemError (msg : string).     (* a failed write or query *)

Inductive result (A : Type) : Type :=
| Ok (a : A)
| Throw (e : Error).
Arguments Ok {A} a.
Arguments Throw {A} e.

(** Modelled from the spec: the error middleware that turns a thrown error
    into a response is not among the sources; sections 6 and 7 give
    400 / 401 / 403 / 404 for the four request errors.  Anything else is an
    internal error. *)
Definition http_status (e : Error) : Z :=
  match e with
  | BadRequestError _ => 400
  | UserNotAuthenticatedError _ => 401
  | UserForbiddenError _ => 403
  | NotFoundError _ => 404
  | _ => 500
  end.

(* ===================================================================== *)
(** ** Data                                                               *)
(* ===================================================================== *)

(** The video record of the database layer: the four fields the handlers
    read or assign, and the remaining columns as they came. *)
Record Video : Type := mkVideo {
  video_id : string;
  userID : string;
  thumbnailURL : option string;
  videoURL : option string;
  columns : list (string * string)
}.

(** [video.thumbnailURL = url] and [video.videoURL = url]. *)
Definition set_thumbnailURL (url : string) (v : Video) : Video :=
  mkVideo (video_id v) (userID v) (Some url) (videoURL v) (columns v).

Definition set_videoURL (url : string) (v : Video) : Video :=
  mkVideo (video_id v) (userID v) (thumbnailURL v) (Some url) (columns v).

(** A [File] of a multipart form: the byte length and the declared media
    type the runtime reports, and the content. *)
Record File : Type := mkFile {
  file_size : Z;
  file_type : string;
  file_data : string
}.

Inductive FormDataEntryValue : Type :=
| FormString (s : string)
| FormFile (f : File).

Definition FormData : Type := list (string * FormDataEntryValue).

(** [formData.get(name)]: the first entry of that name, or [null]. *)
Fixpoint formData_get (fd : FormData) (name : string) : option FormDataEntryValue :=
  match fd with
  | [] => None
  | (k, v) :: rest => if String.eqb k name then Some v else formData_get rest name
  end.

Definition Headers : Type := list (string * string).

(** A request: the route parameter, the headers, and the body as
    [req.formData()] resolves it ([None]: the body is not form data and the
    call rejects). *)
Record BunRequest : Type := mkRequest {
  params_videoId : option string;
  headers : Headers;
  body : option FormData
}.

(** The options of [ApiConfig] that are plain values; [cfg.db] and
    [cfg.s3Client] are handles on the database and the bucket of [World]. *)
Record ApiConfig : Type := mkConfig {
  jwtSecret : string;
  assetsRoot : string;
  s3Bucket : string;
  publicBaseURL : string
}.

Record Response : Type := mkResponse {
  status : Z;
  payload : Video
}.

(** [respondWithJSON(status, video)]. *)
Definition respondWithJSON (code : Z) (v : Video) : Response :=
  mkResponse code v.

(** What [ffprobe] leaves behind: exit status and the two captured streams. *)
Record ProcOutput : Type := mkProc {
  exitCode : Z;
  stdoutText : string;
  stderrText : string
}.

(** What [JSON.parse] returns for the document [ffprobe -of json
    -show_entries stream=width,height] prints, at the shape the classifier
    reads it: an optional [streams] array whose entries carry an optional
    [width] and [height], integers as the probe prints them.  Text that is
    not JSON has no such value: [JSON.parse] throws. *)
Record StreamEntry : Type := mkStream {
  width : option Z;
  height : option Z
}.

Record ProbeData : Type := mkProbe {
  streams : option (list StreamEntry)
}.

(** An object written to the bucket: [s3Client.file(key, {bucket})] and
    [write(tempFile, {type})].  The body is the local file the upload
    streams from, named by its path. *)
Record S3Object : Type := mkS3Object {
  s3_key : string;
  s3_bucket : string;
  s3_source : string;
  s3_type : string
}.

(** Calls that leave the process, in the order they are made. *)
Inductive Event : Type :=
| ConsoleLog (args : list string)
| BunWrite (path : string)
| BunSpawn (argv : list string)
| S3Write (obj : S3Object)
| FileDelete (path : string)
| UpdateVideo (v : Video).

(** Failures the environment has in store for the next disk write, bucket
    upload and database update, each with the message of the system error
    it raises. *)
Record Faults : Type := mkFaults {
  disk_fault : option string;
  upload_fault : option string;
  persist_fault : option string
}.

Definition no_faults : Faults := mkFaults None None None.

(* ===================================================================== *)
(** ** Collaborators                                                      *)
(* ===================================================================== *)

(** What the handlers import from modules whose code is not theirs:
    [../auth], [../db/videos], [./assets], the runtime's JSON parser and the
    [ffprobe] executable (its output as a function of the content of the
    file it is pointed at, [None] when there is no such file). *)
Class Platform : Type := {
  Database : Type;
  getBearerToken : Headers -> result string;
  validateJWT : string -> string -> result string;
  getVideo : Database -> string -> option Video;
  updateVideo : Database -> Video -> Database;
  mediaTypeToExt : string -> string;
  getAssetDiskPath : ApiConfig -> string -> string;
  getAssetURL : ApiConfig -> string -> string;
  getS3AssetURL : ApiConfig -> string -> string;
  JSON_parse : string -> option ProbeData;
  ffprobe : option string -> ProcOutput
}.

(** Lines 111-123 of [videos.ts]: the label from the two dimensions, which
    are doubles; [===] on numbers is [SFeqb]. *)
Definition aspectRatioOf (w h : Z) : string :=
  let width := binary64_of_Z w in
  let height := binary64_of_Z h in
  let adjustedWidth := Math_floor (sixteen_ninths width) in
  let adjustedHeight := Math_floor (sixteen_ninths height) in
  if SFeqb width adjustedHeight then "landscape"
  else if SFeqb height adjustedWidth then "portrait"
  else "other".

Arguments aspectRatioOf : simpl never.

(** The same lines with the two floors read as integers and compared with
    the integer dimensions, which is the comparison of the doubles for
    dimensions of at most 53 bits ([None] if a floor is not finite). *)
Definition aspectRatioOf_binary64 (w h : Z) : option string :=
  match floor_16_ninths_binary64 w, floor_16_ninths_binary64 h with
  | Some adjustedWidth, Some adjustedHeight =>
      Some (if w =? adjustedHeight then "landscape"
            else if h =? adjustedWidth then "portrait"
            else "other")
  | _, _ => None
  end.

(** [!n] for an optional number: [undefined] and [0] are falsy. *)
Definition falsy (n : option Z) : bool :=
  match n with
  | None => true
  | Some z => z =? 0
  end.

(** The argument vector of the [Bun.spawn] call (lines 75-86). *)
Definition ffprobe_argv (filePath : string) : list string :=
  ["ffprobe"; "-v"; "error"; "-select_streams"; "v:0"; "-show_entries";
   "stream=width,height"; "-of"; "json"; filePath].

Section Handlers.
Context {P : Platform}.

(** The disk, the bucket, the database, the failures in store and the
    calls made so far. *)
Record World : Type := mkWorld {
  fs : gmap string string;
  s3 : list S3Object;
  db : Database;
  faults : Faults;
  trace : list Event
}.

(** Computations that read and change the world and may throw. *)
Definition M (A : Type) : Type := World -> result A * World.

Definition ret {A} (a : A) : M A := fun w => (Ok a, w).

Definition throw {A} (e : Error) : M A := fun w => (Throw e, w).

Definition bind {A B} (m : M A) (k : A -> M B) : M B :=
  fun w =>
    match m w with
    | (Ok a, w') => k a w'
    | (Throw e, w') => (Throw e, w')
    end.

(** A collaborator's result, rethrown when it is an error. *)
Definition lift {A} (r : result A) : M A := fun w => (r, w).

Definition emit (e : Event) : M unit :=
  fun w => (Ok tt, mkWorld (fs w) (s3 w) (db w) (faults w) (trace w ++ [e])).

(** [if (c) { throw e }]. *)
Definition throwIf (c : bool) (e : Error) : M unit :=
  if c then throw e else ret tt.
End Handlers.

Declare Scope js_scope.
Delimit Scope js_scope with js.
Notation "x <- c1 ;; c2" := (bind c1 (fun x => c2))
  (at level 100, c1 at next level, right associativity) : js_scope.
Notation "c1 ;; c2" := (bind c1 (fun _ => c2))
  (at level 100, right associativity) : js_scope.
Open Scope js_scope.

Section Operations.
Context {P : Platform}.

(** [console.log(...)]. *)
Definition console_log (args : list string) : M unit :=
  emit (ConsoleLog args).

(** [getVideo(cfg.db, videoId)]. *)
Definition db_getVideo (videoId : string) : M (option Video) :=
  fun w => (Ok (getVideo (db w) videoId), w).

(** [await updateVideo(cfg.db, video)]: throws on a persistence error,
    stores the record otherwise.  Whether the database fails is a matter of
    the environment, not of the record it is given. *)
Definition db_updateVideo (v : Video) : M unit :=
  emit (UpdateVideo v) ;;
  fun w =>
    match persist_fault (faults w) with
    | Some msg => (Throw (SystemError msg), w)
    | None => (Ok tt, mkWorld (fs w) (s3 w) (updateVideo (db w) v) (faults w) (trace w))
    end.

(** [await Bun.write(path, file)]. *)
Definition Bun_write (path : string) (file : File) : M unit :=
  emit (BunWrite path) ;;
  fun w =>
    match disk_fault (faults w) with
    | Some msg => (Throw (SystemError msg), w)
    | None =>
        (Ok tt, mkWorld (<[path := file_data file]> (fs w)) (s3 w) (db w) (faults w) (trace w))
    end.

(** [await tempFile.delete()]. *)
Definition file_delete (path : string) : M unit :=
  emit (FileDelete path) ;;
  fun w => (Ok tt, mkWorld (delete path (fs w)) (s3 w) (db w) (faults w) (trace w)).

(** [s3file.write(tempFile, {type})] on [cfg.s3Client.file(key, {bucket})].
    The handlers do not await the promise: whether the upload lands or
    fails, control continues with the next statement. *)
Definition s3_write (obj : S3Object) : M unit :=
  emit (S3Write obj) ;;
  fun w =>
    match upload_fault (faults w) with
    | Some _ => (Ok tt, w)
    | None => (Ok tt, mkWorld (fs w) (s3 w ++ [obj]) (db w) (faults w) (trace w))
    end.

(** [Bun.spawn([...])] and the three awaits of lines 91-94. *)
Definition spawn_ffprobe (filePath : string) : M ProcOutput :=
  emit (BunSpawn (ffprobe_argv filePath)) ;;
  fun w => (Ok (ffprobe (fs w !! filePath)), w).

(** [getVideoAspectRatio], [videos.ts] lines 74-124. *)
Definition getVideoAspectRatio (filePath : string) : M string :=
  proc <- spawn_ffprobe filePath ;;
  throwIf (negb (exitCode proc =? 0)) (JsError (stderrText proc)) ;;
  parsed <- match JSON_parse (stdoutText proc) with
            | Some v => ret v
            | None => throw (SyntaxError "JSON Parse error")
            end ;;
  match streams parsed with
  | None | Some [] => throw (JsError "Stream data not found.")
  | Some (aspectData :: _) =>
      throwIf (falsy (width aspectData) || falsy (height aspectData))
              (JsError "Missing stream aspect ratio parameter.") ;;
      (* past the test both dimensions are numbers *)
      match width aspectData, height aspectData with
      | Some w, Some h => ret (aspectRatioOf w h)
      | _, _ => throw (JsError "Missing stream aspect ratio parameter.")
      end
  end.
End Operations.

Section Upload.
Context {P : Platform}.

(** [const { videoId } = req.params; if (!videoId) throw ...]: a missing
    and an empty identifier are both refused. *)
Definition require_videoId (req : BunRequest) : M string :=
  match params_videoId req with
  | Some videoId =>
      if String.eqb videoId "" then throw (BadRequestError "Invalid video ID")
      else ret videoId
  | None => throw (BadRequestError "Invalid video ID")
  end.

(** [await req.formData()]. *)
Definition req_formData (req : BunRequest) : M FormData :=
  match body req with
  | Some fd => ret fd
  | None => throw (TypeError "FormData parse error")
  end.

(** [formData.get(name)] followed by [if (!(file instanceof File)) throw]. *)
Definition require_file (fd : FormData) (name : string) (e : Error) : M File :=
  match formData_get fd name with
  | Some (FormFile f) => ret f
  | _ => throw e
  end.

(** [handlerUploadThumbnail], [thumbnails.ts] lines 9-55.  The local
    [userID] of the source is [userId] here, [userID] being the field of the
    record. *)
Definition handlerUploadThumbnail (cfg : ApiConfig) (req : BunRequest) : M Response :=
  videoId <- require_videoId req ;;
  token <- lift (getBearerToken (headers req)) ;;
  userId <- lift (validateJWT token (jwtSecret cfg)) ;;
  console_log ["uploading thumbnail for video"; videoId; "by user"; userId] ;;
  found <- db_getVideo videoId ;;
  match found with
  | None => throw (NotFoundError "Couldn't find video")
  | Some video =>
      throwIf (negb (String.eqb (userID video) userId))
              (UserForbiddenError "You do not have access to edit this video") ;;
      formData <- req_formData req ;;
      file <- require_file formData "thumbnail" (BadRequestError "Thumbnail file missing") ;;
      let MAX_UPLOAD_SIZE := js_shl 10 20 in
      throwIf (file_size file >? MAX_UPLOAD_SIZE)
              (BadRequestError "Thumbnail file size must be < 10MB") ;;
      let type := file_type file in
      throwIf (String.eqb type "")
              (BadRequestError "Missing Content-Type for thumbnail") ;;
      let ext := mediaTypeToExt type in
      let filename := videoId ++ ext in
      let assetDiskPath := getAssetDiskPath cfg filename in
      Bun_write assetDiskPath file ;;
      let assetURL := getAssetURL cfg filename in
      let video' := set_thumbnailURL assetURL video in
      db_updateVideo video' ;;
      ret (respondWithJSON 200 video')
  end.

(** [handlerUploadVideo], [videos.ts] lines 10-72: the variant that asks
    the classifier and stores under [label/filename]. *)
Definition handlerUploadVideo (cfg : ApiConfig) (req : BunRequest) : M Response :=
  videoId <- require_videoId req ;;
  token <- lift (getBearerToken (headers req)) ;;
  userId <- lift (validateJWT token (jwtSecret cfg)) ;;
  found <- db_getVideo videoId ;;
  match found with
  | None => throw (NotFoundError "Couldn't find video")
  | Some video =>
      throwIf (negb (String.eqb (userID video) userId))
              (UserForbiddenError "You do not have access to edit this video") ;;
      formData <- req_formData req ;;
      file <- require_file formData "video" (BadRequestError "Video file missing") ;;
      let MAX_UPLOAD_SIZE := js_shl 1 30 in
      throwIf (file_size file >? MAX_UPLOAD_SIZE)
              (BadRequestError "Video file size must be < 1GB") ;;
      let type := file_type file in
      throwIf (String.eqb type "")
              (BadRequestError "Missing Content-Type for Video") ;;
      throwIf (negb (String.eqb type "video/mp4"))
              (BadRequestError "Invalid Content-Type for Video") ;;
      let ext := mediaTypeToExt type in
      let filename := videoId ++ ext in
      let assetDiskPath := getAssetDiskPath cfg filename in
      Bun_write assetDiskPath file ;;
      let tempFile := assetDiskPath in
      aspectRatio <- getVideoAspectRatio assetDiskPath ;;
      let prefixedFileName := aspectRatio ++ "/" ++ filename in
      s3_write (mkS3Object prefixedFileName (s3Bucket cfg) tempFile type) ;;
      let assetURL := getS3AssetURL cfg prefixedFileName in
      let video' := set_videoURL assetURL video in
      file_delete tempFile ;;
      db_updateVideo video' ;;
      ret (respondWithJSON 200 video')
  end.

(** The second [handlerUploadVideo] of [videos.ts] (lines 132-190): the
    variant that stores under the bare filename. *)
Definition handlerUploadVideo2 (cfg : ApiConfig) (req : BunRequest) : M Response :=
  videoId <- require_videoId req ;;
  token <- lift (getBearerToken (headers req)) ;;
  userId <- lift (validateJWT token (jwtSecret cfg)) ;;
  found <- db_getVideo videoId ;;
  match found with
  | None => throw (NotFoundError "Couldn't find video")
  | Some video =>
      throwIf (negb (String.eqb (userID video) userId))
              (UserForbiddenError "You do not have access to edit this video") ;;
      formData <- req_formData req ;;
      file <- require_file formData "video" (BadRequestError "Video file missing") ;;
      let MAX_UPLOAD_SIZE := js_shl 1 30 in
      throwIf (file_size file >? MAX_UPLOAD_SIZE)
              (BadRequestError "Video file size must be < 1GB") ;;
      let type := file_type file in
      throwIf (String.eqb type "")
              (BadRequestError "Missing Content-Type for Video") ;;
      throwIf (negb (String.eqb type "video/mp4"))
              (BadRequestError "Invalid Content-Type for Video") ;;
      let ext := mediaTypeToExt type in
      let filename := videoId ++ ext in
      let assetDiskPath := getAssetDiskPath cfg filename in
      Bun_write assetDiskPath file ;;
      let tempFile := assetDiskPath in
      s3_write (mkS3Object filename (s3Bucket cfg) tempFile type) ;;
      let assetURL := getS3AssetURL cfg filename in
      let video' := set_videoURL assetURL video in
      file_delete tempFile ;;
      db_updateVideo video' ;;
      ret (respondWithJSON 200 video')
  end.
End Upload.

(* ===================================================================== *)
(** ** A concrete platform, to run the handlers on examples               *)
(* ===================================================================== *)

Module Demo.
Fixpoint header_get (h : Headers) (name : string) : option string :=
  match h with
  | [] => None
  | (k, v) :: rest => if String.eqb k name then Some v else header_get rest name
  end.

(** The token after [Bearer ] in the [Authorization] header. *)
Definition getBearerToken (h : Headers) : result string :=
  match header_get h "Authorization" with
  | Some v =>
      if String.prefix "Bearer " v
      then Ok (String.substring 7 (String.length v - 7) v)
      else Throw (BadRequestError "Malformed authorization header")
  | None => Throw (BadRequestError "Malformed authorization header")
  end.

(** Tokens are [secret.user]; anything else does not verify. *)
Definition validateJWT (token secret : string) : result string :=
  let key := secret ++ "." in
  if String.prefix key token
  then Ok (String.substring (String.length key) (String.length token - String.length key) token)
  else Throw (UserNotAuthenticatedError "Invalid token").

(** The table of videos, one row per record. *)
Definition getVideo (rows : list Video) (videoId : string) : option Video :=
  List.find (fun r => String.eqb (video_id r) videoId) rows.

Definition updateVideo (rows : list Video) (v : Video) : list Video :=
  List.map (fun r => if String.eqb (video_id r) (video_id v) then v else r) rows.

(** [type/subtype] gives [.subtype]; anything else [.bin]. *)
Definition mediaTypeToExt (mediaType : string) : string :=
  match String.index 0 "/" mediaType with
  | Some i =>
      "." ++ String.substring (S i) (String.length mediaType - S i) mediaType
  | None => ".bin"
  end.

Definition getAssetDiskPath (cfg : ApiConfig) (assetPath : string) : string :=
  assetsRoot cfg ++ "/" ++ assetPath.

Definition getAssetURL (cfg : ApiConfig) (assetPath : string) : string :=
  publicBaseURL cfg ++ "/assets/" ++ assetPath.

Definition getS3AssetURL (cfg : ApiConfig) (key : string) : string :=
  "https://" ++ s3Bucket cfg ++ ".s3.amazonaws.com/" ++ key.

(** A few clips and what the probe prints for each: a document with the
    dimensions of the first stream, a document without streams, a document
    cut short, or an error on anything that is no video.  The documents
    are written without the quotation marks of JSON. *)
Definition probe_document (dims : string) : string :=
  "{streams:[{" ++ dims ++ "}]}".

Definition ffprobe (content : option string) : ProcOutput :=
  match content with
  | Some "clip 1920x1080" => mkProc 0 (probe_document "width:1920,height:1080") ""
  | Some "clip 1080x1920" => mkProc 0 (probe_document "width:1080,height:1920") ""
  | Some "clip 640x480" => mkProc 0 (probe_document "width:640,height:480") ""
  | Some "clip 0x0" => mkProc 0 (probe_document "width:0,height:0") ""
  | Some "audio only" => mkProc 0 "{streams:[]}" ""
  | Some "truncated" => mkProc 0 "{streams:[{wid" ""
  | _ => mkProc 1 "" "Invalid data found when processing input"
  end.

Definition JSON_parse (text : string) : option ProbeData :=
  let one w h := Some (mkProbe (Some [mkStream (Some w) (Some h)])) in
  match text with
  | "{streams:[{width:1920,height:1080}]}" => one 1920 1080
  | "{streams:[{width:1080,height:1920}]}" => one 1080 1920
  | "{streams:[{width:640,height:480}]}" => one 640 480
  | "{streams:[{width:0,height:0}]}" => one 0 0
  | "{streams:[]}" => Some (mkProbe (Some []))
  | "{}" => Some (mkProbe None)
  | _ => None
  end.

Definition platform : Platform :=
  Build_Platform (list Video) getBearerToken validateJWT getVideo updateVideo
    mediaTypeToExt getAssetDiskPath getAssetURL getS3AssetURL JSON_parse ffprobe.

Definition cfg : ApiConfig :=
  mkConfig "s3cr3t" "/srv/assets" "tubely-bucket" "http://localhost:8091".

Definition alices_video : Video :=
  mkVideo "v1" "alice" None None [("title", "Holiday")].

Definition rows : @Database platform := [alices_video].

Definition world (pending : Faults) : @World platform :=
  mkWorld ∅ [] rows pending [].

(** The same world with one file on the disk, where the video handler
    puts the upload of video [v1]. *)
Definition temp_path : string := "/srv/assets/v1.mp4".

Definition with_file (content : string) : @World platform :=
  mkWorld {[ temp_path := content ]} [] rows no_faults [].

Definition upload (token field type content : string) (size : Z) : BunRequest :=
  mkRequest (Some "v1") [("Authorization", "Bearer " ++ token)]
            (Some [(field, FormFile (mkFile size type content))]).

(** Alice uploads a landscape clip for her video; Bob tries to replace it
    with a picture; somebody sends a picture with a forged token; Alice
    uploads something that is no video; Alice uploads a thumbnail. *)
Definition clip : File := mkFile 14 "video/mp4" "clip 1920x1080".
Definition alice_uploads_clip : BunRequest :=
  upload "s3cr3t.alice" "video" "video/mp4" "clip 1920x1080" 14.
Definition alice_uploads_picture : BunRequest :=
  upload "s3cr3t.alice" "video" "image/png" "PNG" 3.
Definition bob_uploads_picture : BunRequest :=
  upload "s3cr3t.bob" "video" "image/png" "PNG" 3.
Definition forged_upload : BunRequest :=
  upload "forged" "video" "image/png" "PNG" 3.
Definition alice_uploads_junk : BunRequest :=
  upload "s3cr3t.alice" "video" "video/mp4" "not a video" 11.
Definition landscape_url : string :=
  "https://tubely-bucket.s3.amazonaws.com/landscape/v1.mp4".
Definition plain_url : string :=
  "https://tubely-bucket.s3.amazonaws.com/v1.mp4".
Definition alice_uploads_thumbnail (size : Z) : BunRequest :=
  upload "s3cr3t.alice" "thumbnail" "image/png" "PNG" size.
Definition bob_uploads_thumbnail : BunRequest :=
  upload "s3cr3t.bob" "thumbnail" "image/png" "PNG" 3.
End Demo.


(* ===================================================================== *)
(** ** Vocabulary of the statements                                       *)
(* ===================================================================== *)

(** The three labels. *)
Definition is_label (s : string) : Prop :=
  s = "landscape" \/ s = "portrait" \/ s = "other".

(** The rule as section 4.3 words it, on integers. *)
Definition label_rule (w h : Z) : string :=
  if w =? 16 * h / 9 then "landscape"
  else if h =? 16 * w / 9 then "portrait"
  else "other".

(** Vocabulary of the rounding lemmas: an integer from its sign and
    magnitude; the mantissa of the double 9, which is [9 * 2^49]; the
    position of an exact quotient by 9 between two integers, from the
    remainder; and that position after the last bit of the integer part is
    shifted out. *)
Definition signed (s : bool) (m : positive) : Z :=
  if s then Zneg m else Zpos m.

Definition nine : positive := 5066549580791808.

Definition ninth_location (t : Z) : location :=
  if t =? 0 then loc_Exact else loc_Inexact (2 * t ?= 9).

Definition half_location (q : Z) (l : location) : location :=
  match Z.odd q, l with
  | false, loc_Exact => loc_Exact
  | false, loc_Inexact _ => loc_Inexact Lt
  | true, loc_Exact => loc_Inexact Eq
  | true, loc_Inexact _ => loc_Inexact Gt
  end.

(** The first entry of [streams], when there is one. *)
Definition first_stream (d : ProbeData) : option StreamEntry :=
  match streams d with
  | Some (s :: _) => Some s
  | _ => None
  end.

(** No stream entries: [streams] is absent or empty. *)
Definition no_stream_entries (d : ProbeData) : Prop :=
  streams d = None \/ streams d = Some [].

(** A stream that lacks its width or its height. *)
Definition lacks_dimension (s : StreamEntry) : Prop :=
  width s = None \/ height s = None.

(** A stream whose width or height is absent or zero. *)
Definition dimension_missing_or_zero (s : StreamEntry) : Prop :=
  width s = None \/ width s = Some 0 \/ height s = None \/ height s = Some 0.

Section Vocabulary.
Context {P : Platform}.

(** The causes of failure, given what counts as a stream without usable
    dimensions: a non-zero exit status, output that does not parse, no
    stream entries, or such a first stream. *)
Definition probe_rejected (unusable : StreamEntry -> Prop) (proc : ProcOutput) : Prop :=
  exitCode proc <> 0 \/
  JSON_parse (stdoutText proc) = None \/
  exists d, JSON_parse (stdoutText proc) = Some d /\
            (no_stream_entries d \/
             exists s, first_stream d = Some s /\ unusable s).

(** The request names a video and carries a token that verifies as
    [userId]. *)
Definition identified (cfg : ApiConfig) (req : BunRequest)
    (videoId userId : string) : Prop :=
  params_videoId req = Some videoId /\ videoId <> "" /\
  exists token, getBearerToken (headers req) = Ok token /\
                validateJWT token (jwtSecret cfg) = Ok userId.

(** The request comes from the owner of the stored record [video]. *)
Definition authorised (cfg : ApiConfig) (req : BunRequest) (w : World)
    (videoId : string) (video : Video) : Prop :=
  identified cfg req videoId (userID video) /\
  getVideo (db w) videoId = Some video.

(** The form of the request has the file [file] in its field [field]. *)
Definition carries_file (req : BunRequest) (field : string) (file : File) : Prop :=
  exists fd, body req = Some fd /\ formData_get fd field = Some (FormFile file).

(** The request passes every check of the video handlers. *)
Definition passes_video_checks (cfg : ApiConfig) (req : BunRequest) (w : World)
    (videoId : string) (video : Video) (file : File) : Prop :=
  authorised cfg req w videoId video /\
  carries_file req "video" file /\
  file_size file <= 2 ^ 30 /\
  file_type file = "video/mp4".

(** The request passes every check of the thumbnail handler. *)
Definition passes_thumbnail_checks (cfg : ApiConfig) (req : BunRequest) (w : World)
    (videoId : string) (video : Video) (file : File) : Prop :=
  authorised cfg req w videoId video /\
  carries_file req "thumbnail" file /\
  file_size file <= 10 * 2 ^ 20 /\
  file_type file <> "".

(** Where the video handlers put the upload of video [videoId]. *)
Definition video_filename (videoId : string) : string :=
  videoId ++ mediaTypeToExt "video/mp4".

Definition video_temp_path (cfg : ApiConfig) (videoId : string) : string :=
  getAssetDiskPath cfg (video_filename videoId).

(** The world after the probe ran: one more call, nothing else. *)
Definition spawned (filePath : string) (w : World) : World :=
  mkWorld (fs w) (s3 w) (db w) (faults w)
          (trace w ++ [BunSpawn (ffprobe_argv filePath)]).

(** The records passed to [updateVideo], the paths written with
    [Bun.write], the objects sent to the bucket and the probes spawned,
    among a sequence of calls. *)
Definition updates_of (t : list Event) : list Video :=
  omap (fun e => match e with UpdateVideo v => Some v | _ => None end) t.

Definition uploads_of (t : list Event) : list S3Object :=
  omap (fun e => match e with S3Write o => Some o | _ => None end) t.

Definition spawns_of (t : list Event) : list (list string) :=
  omap (fun e => match e with BunSpawn argv => Some argv | _ => None end) t.

(** The calls that write: to the disk, to the bucket, to the database. *)
Definition is_write (e : Event) : bool :=
  match e with
  | BunWrite _ | S3Write _ | FileDelete _ | UpdateVideo _ => true
  | ConsoleLog _ | BunSpawn _ => false
  end.
End Vocabulary.

(** Checks of a request on concrete data. *)
Ltac demo_checks :=
  unfold passes_video_checks, passes_thumbnail_checks, authorised, identified,
    carries_file;
  repeat first [ split | eexists ];
  first [ reflexivity | discriminate | lia | vm_compute; reflexivity
        | vm_compute; discriminate ].

(* ===================================================================== *)
(** ** More vocabulary and a second concrete platform                     *)
(* ===================================================================== *)

(** The paths deleted among a sequence of calls. *)
Definition deletes_of (t : list Event) : list string :=
  omap (fun e => match e with FileDelete p => Some p | _ => None end) t.

Module Lab.
(** The platform of [Demo] with two more clips: one whose probe output
    has a second stream without dimensions after the video stream, and one
    for which the probe prints dimensions of fifty-one bits. *)
Definition ffprobe (content : option string) : ProcOutput :=
  match content with
  | Some "clip with audio" =>
      mkProc 0 "{streams:[{width:1920,height:1080},{}]}" ""
  | Some "immense clip" =>
      mkProc 0 "{streams:[{width:2001599834386889,height:1125899906842625}]}" ""
  | _ => Demo.ffprobe content
  end.

Definition JSON_parse (text : string) : option ProbeData :=
  match text with
  | "{streams:[{width:1920,height:1080},{}]}" =>
      Some (mkProbe (Some [mkStream (Some 1920) (Some 1080); mkStream None None]))
  | "{streams:[{width:2001599834386889,height:1125899906842625}]}" =>
      Some (mkProbe (Some [mkStream (Some 2001599834386889)
                                    (Some 1125899906842625)]))
  | _ => Demo.JSON_parse text
  end.

Definition platform : Platform :=
  Build_Platform (list Video) Demo.getBearerToken Demo.validateJWT Demo.getVideo
    Demo.updateVideo Demo.mediaTypeToExt Demo.getAssetDiskPath Demo.getAssetURL
    Demo.getS3AssetURL JSON_parse ffprobe.

Definition rows : @Database platform := [Demo.alices_video].

(** Two clips on the disk. *)
Definition two_clips : @World platform :=
  mkWorld (<["/a.mp4" := "clip 1920x1080"]> {["/b.mp4" := "clip with audio"]})
          [] rows no_faults [].

(** The immense clip on the disk. *)
Definition immense_clip : @World platform :=
  mkWorld {["/c.mp4" := "immense clip"]} [] rows no_faults [].

(** Requests of Alice: without a video id; for a video that does not exist,
    with a clip and with a picture; with a text value before the file in
    the field [video]; with a picture of 1 GiB and one byte; with a
    thumbnail declared as [video/mp4]. *)
Definition without_id : BunRequest :=
  mkRequest None [("Authorization", "Bearer s3cr3t.alice")]
            (Some [("video", FormFile Demo.clip)]).

Definition for_unknown_video : BunRequest :=
  mkRequest (Some "v2") [("Authorization", "Bearer s3cr3t.alice")]
            (Some [("video", FormFile Demo.clip)]).

Definition picture_for_unknown_video : BunRequest :=
  mkRequest (Some "v2") [("Authorization", "Bearer s3cr3t.alice")]
            (Some [("video", FormFile (mkFile 3 "image/png" "PNG"))]).

Definition text_before_file : FormData :=
  [("video", FormString "clip"); ("video", FormFile Demo.clip)].

Definition with_text_before_file : BunRequest :=
  mkRequest (Some "v1") [("Authorization", "Bearer s3cr3t.alice")]
            (Some text_before_file).

Definition huge_picture : File := mkFile (2 ^ 30 + 1) "image/png" "PNG".

Definition with_huge_picture : BunRequest :=
  Demo.upload "s3cr3t.alice" "video" "image/png" "PNG" (2 ^ 30 + 1).

Definition mp4_thumbnail : File := mkFile 5 "video/mp4" "cover".

Definition with_mp4_thumbnail : BunRequest :=
  Demo.upload "s3cr3t.alice" "thumbnail" "video/mp4" "cover" 5.

Definition picture : File := mkFile 3 "image/png" "PNG".

Definition junk : File := mkFile 11 "video/mp4" "not a video".
End Lab.

(* ===================================================================== *)
(** ** The arithmetic of doubles in the classifier                        *)
(* ===================================================================== *)

(** The digits of a mantissa. *)
Lemma digits2_pos_bounds (p : positive) :
  2 ^ (Zpos (digits2_pos p) - 1) <= Zpos p < 2 ^ Zpos (digits2_pos p).
Proof.
  induction p as [p IH|p IH|]; cbn [digits2_pos].
  - rewrite Pos2Z.inj_succ, Pos2Z.inj_xI.
    replace (Z.succ (Zpos (digits2_pos p)) - 1)
      with (Z.succ (Zpos (digits2_pos p) - 1)) by lia.
    rewrite !Z.pow_succ_r by lia.
    lia.
  - rewrite Pos2Z.inj_succ. change (Zpos p~0) with (2 * Zpos p).
    replace (Z.succ (Zpos (digits2_pos p)) - 1)
      with (Z.succ (Zpos (digits2_pos p) - 1)) by lia.
    rewrite !Z.pow_succ_r by lia.
    lia.
  - cbn. lia.
Qed.

Lemma digits2_pos_unique (p : positive) (d : Z) :
  2 ^ (d - 1) <= Zpos p < 2 ^ d -> Zpos (digits2_pos p) = d.
Proof.
  intros [Hlo Hhi]. pose proof (digits2_pos_bounds p) as [Blo Bhi].
  set (D := Zpos (digits2_pos p)) in *.
  assert (0 < d).
  { destruct (Z.ltb_spec 0 d) as [|Hd]; [assumption|].
    destruct (Z.eq_dec d 0) as [->|]; [cbn in Hhi; lia|].
    rewrite Z.pow_neg_r in Hhi by lia. lia. }
  destruct (Z.lt_trichotomy D d) as [Hlt|[Heq|Hgt]]; [|assumption|].
  - assert (2 ^ D <= 2 ^ (d - 1)) by (apply Z.pow_le_mono_r; lia). lia.
  - assert (2 ^ d <= 2 ^ (D - 1)) by (apply Z.pow_le_mono_r; lia). lia.
Qed.

Lemma shift_pos_value (p k : positive) :
  Zpos (Pos.iter xO p k) = Zpos p * 2 ^ Zpos k.
Proof.
  apply (Pos.iter_ind positive xO p
           (fun k a => Zpos a = Zpos p * 2 ^ Zpos k)).
  - cbn. lia.
  - intros q a IH. change (Zpos a~0) with (2 * Zpos a).
    rewrite IH, Pos2Z.inj_succ, Z.pow_succ_r by lia.
    lia.
Qed.

(** A mantissa of 53 digits at an exponent in range is kept as it is. *)
Lemma binary_round_aux_canonical (sx : bool) (m : positive) (e : Z) :
  Zpos (digits2_pos m) = 53 -> -1074 <= e <= 971 ->
  binary_round_aux 53 1024 sx (Zpos m) e loc_Exact = S754_finite sx m e.
Proof.
  intros Hd He.
  unfold binary_round_aux, shr_fexp, fexp, emin.
  cbn [Zdigits2 shr_record_of_loc]. rewrite Hd.
  replace (Z.max (53 + e - 53) (3 - 1024 - 53) - e) with 0 by lia.
  cbn [shr shr_m loc_of_shr_record round_nearest_even shr_record_of_loc Zdigits2].
  rewrite Hd.
  replace (Z.max (53 + e - 53) (3 - 1024 - 53) - e) with 0 by lia.
  cbn [shr shr_m].
  replace (e <=? 1024 - 53) with true by (symmetry; apply Z.leb_le; lia).
  reflexivity.
Qed.

Lemma binary64_of_Z_signed (sx : bool) (p : positive) :
  Zpos (digits2_pos p) <= 53 ->
  exists m,
    binary64_of_Z (signed sx p) =
      S754_finite sx m (Zpos (digits2_pos p) - 53) /\
    Zpos m = Zpos p * 2 ^ (53 - Zpos (digits2_pos p)) /\
    Zpos (digits2_pos m) = 53.
Proof.
  intros Hd. pose proof (digits2_pos_bounds p) as [Blo Bhi].
  set (d := Zpos (digits2_pos p)) in *.
  assert (0 < d) by (unfold d; lia).
  assert (Hn : binary64_of_Z (signed sx p) = binary_round 53 1024 sx p 0)
    by now destruct sx.
  rewrite Hn. unfold binary_round, shl_align, fexp, emin.
  fold d.
  replace (Z.max (d + 0 - 53) (3 - 1024 - 53) - 0) with (d - 53) by lia.
  destruct (d - 53) as [|k|k] eqn:Hk; [| lia |].
  - exists p. replace (53 - d) with 0 by lia. rewrite Z.mul_1_r.
    replace (Z.max (d + 0 - 53) (3 - 1024 - 53)) with 0 by lia.
    split; [| split; [reflexivity | unfold d in *; lia]].
    apply binary_round_aux_canonical; unfold d in *; lia.
  - assert (Hm : Zpos (Pos.iter xO p k) = Zpos p * 2 ^ (53 - d)).
    { rewrite shift_pos_value. f_equal. f_equal. lia. }
    assert (Hdm : Zpos (digits2_pos (Pos.iter xO p k)) = 53).
    { apply digits2_pos_unique. rewrite Hm.
      replace (2 ^ (53 - 1)) with (2 ^ (d - 1) * 2 ^ (53 - d))
        by (rewrite <- Z.pow_add_r by lia; f_equal; lia).
      replace (2 ^ 53) with (2 ^ d * 2 ^ (53 - d))
        by (rewrite <- Z.pow_add_r by lia; f_equal; lia).
      assert (0 < 2 ^ (53 - d)) by (apply Z.pow_pos_nonneg; lia).
      nia. }
    exists (Pos.iter xO p k). split; [| split; assumption].
    replace (Z.max (d + 0 - 53) (3 - 1024 - 53)) with (Z.neg k) by lia.
    apply binary_round_aux_canonical; [assumption | lia].
Qed.

Lemma shr_record_of_loc_m (m : Z) (l : location) :
  shr_m (shr_record_of_loc m l) = m.
Proof. now destruct l as [|[]]. Qed.

Lemma loc_of_shr_record_of_loc (m : Z) (l : location) :
  loc_of_shr_record (shr_record_of_loc m l) = l.
Proof. now destruct l as [|[]]. Qed.

(** Rounding a quotient of 53 digits: no shift, the location decides. *)
Lemma binary_round_aux_53 (sx : bool) (q M : positive) (l : location) (e : Z) :
  Zpos (digits2_pos q) = 53 ->
  round_nearest_even (Zpos q) l = Zpos M ->
  Zpos (digits2_pos M) = 53 ->
  -1074 <= e <= 971 ->
  binary_round_aux 53 1024 sx (Zpos q) e l = S754_finite sx M e.
Proof.
  intros Hd HM HdM He.
  unfold binary_round_aux, shr_fexp, fexp, emin.
  cbn [Zdigits2]. rewrite Hd.
  replace (Z.max (53 + e - 53) (3 - 1024 - 53) - e) with 0 by lia.
  cbn [shr]. rewrite shr_record_of_loc_m, loc_of_shr_record_of_loc, HM.
  cbn [Zdigits2 shr_record_of_loc]. rewrite HdM.
  replace (Z.max (53 + e - 53) (3 - 1024 - 53) - e) with 0 by lia.
  cbn [shr shr_m].
  replace (e <=? 1024 - 53) with true by (symmetry; apply Z.leb_le; lia).
  reflexivity.
Qed.

Lemma shr_1_of_loc (q : positive) (l : location) :
  shr_m (shr_1 (shr_record_of_loc (Zpos q) l)) = Z.div2 (Zpos q) /\
  loc_of_shr_record (shr_1 (shr_record_of_loc (Zpos q) l)) =
    half_location (Zpos q) l.
Proof. destruct q, l as [|[]]; now cbn. Qed.

(** Rounding a quotient of 54 digits: one bit is shifted out first. *)
Lemma binary_round_aux_54 (sx : bool) (q M : positive) (l : location) (e : Z) :
  Zpos (digits2_pos q) = 54 ->
  round_nearest_even (Z.div2 (Zpos q)) (half_location (Zpos q) l) = Zpos M ->
  Zpos (digits2_pos M) = 53 ->
  -1074 <= e <= 970 ->
  binary_round_aux 53 1024 sx (Zpos q) e l = S754_finite sx M (e + 1).
Proof.
  intros Hd HM HdM He.
  destruct (shr_1_of_loc q l) as [Hm Hl].
  unfold binary_round_aux, shr_fexp, fexp, emin.
  cbn [Zdigits2]. rewrite Hd.
  replace (Z.max (54 + e - 53) (3 - 1024 - 53) - e) with 1 by lia.
  cbn [shr SpecFloat.iter_pos]. rewrite Hm, Hl, HM.
  cbn [Zdigits2 shr_record_of_loc]. rewrite HdM.
  replace (Z.max (53 + (e + 1) - 53) (3 - 1024 - 53) - (e + 1)) with 0 by lia.
  cbn [shr shr_m].
  replace (e + 1 <=? 1024 - 53) with true by (symmetry; apply Z.leb_le; lia).
  reflexivity.
Qed.

Lemma binary64_of_Z_9 : binary64_of_Z 9 = S754_finite false nine (-49).
Proof. reflexivity. Qed.

Lemma binary64_of_Z_16 :
  binary64_of_Z 16 = S754_finite false 4503599627370496 (-48).
Proof. reflexivity. Qed.

Lemma SFdiv_core_binary_9 (m : positive) (e : Z) :
  Zpos (digits2_pos m) = 53 -> -1000 <= e <= 900 ->
  SFdiv_core_binary 53 1024 (Zpos m) e (Zpos nine) (-49) =
    (16 * Zpos m / 9, e - 4, ninth_location ((16 * Zpos m) mod 9)).
Proof.
  intros Hd He. unfold SFdiv_core_binary.
  change (Zdigits2 (Zpos nine)) with 53. cbn [Zdigits2]. rewrite Hd.
  unfold fexp, emin.
  replace (Z.min (Z.max (53 + e - (53 + -49) - 53) (3 - 1024 - 53)) (e - -49))
    with (e - 4) by lia.
  replace (e - -49 - (e - 4)) with 53 by lia.
  rewrite Z.shiftl_mul_pow2 by lia.
  assert (Hn : Zpos nine = 9 * 2 ^ 49) by reflexivity.
  assert (Hm : Zpos m * 2 ^ 53 = (16 * Zpos m) * 2 ^ 49).
  { change (2 ^ 53) with (16 * 2 ^ 49). ring. }
  pose proof (Z.div_eucl_eq (Zpos m * 2 ^ 53) (Zpos nine) ltac:(lia)) as Heq.
  assert (Hq : (Zpos m * 2 ^ 53) / Zpos nine = 16 * Zpos m / 9).
  { rewrite Hn, Hm. apply Z.div_mul_cancel_r; lia. }
  assert (Hr : (Zpos m * 2 ^ 53) mod Zpos nine = ((16 * Zpos m) mod 9) * 2 ^ 49).
  { rewrite Hn, Hm. apply Z.mul_mod_distr_r; lia. }
  assert (He2 : Z.div_eucl (Zpos m * 2 ^ 53) (Zpos nine) =
                 ((Zpos m * 2 ^ 53) / Zpos nine, (Zpos m * 2 ^ 53) mod Zpos nine)).
  { unfold Z.div, Z.modulo.
    now destruct (Z.div_eucl (Zpos m * 2 ^ 53) (Zpos nine)). }
  rewrite He2, Hq, Hr. clear He2 Hq Hr Heq. f_equal.
  pose proof (Z.mod_pos_bound (16 * Zpos m) 9 ltac:(lia)) as Ht.
  set (t := (16 * Zpos m) mod 9) in *.
  unfold new_location, ninth_location.
  change (Z.even (Zpos nine)) with true. cbn iota.
  unfold new_location_even.
  destruct (Z.eqb_spec t 0) as [Hz|Hne]; [now rewrite Hz|].
  replace (t * 2 ^ 49 =? 0) with false by (symmetry; apply Z.eqb_neq; lia).
  f_equal. rewrite Hn.
  replace (2 * (t * 2 ^ 49)) with (2 * t * 2 ^ 49) by ring.
  destruct (Z.compare_spec (2 * t * 2 ^ 49) (9 * 2 ^ 49)),
    (Z.compare_spec (2 * t) 9); try reflexivity; lia.
Qed.

(** The double quotient of a normalised number by 9: the mantissa is the
    integer quotient [16 * m / 9] rounded to nearest, or that quotient
    without its last bit, rounded to nearest even. *)
Lemma SFdiv_9 (sx : bool) (m : positive) (e : Z) :
  Zpos (digits2_pos m) = 53 -> -1000 <= e <= 900 ->
  exists (M : positive) (s : Z),
    SFdiv 53 1024 (S754_finite sx m e) (binary64_of_Z 9) =
      S754_finite sx M (e - 4 + s) /\
    Zpos (digits2_pos M) = 53 /\
    ((s = 0 /\ 16 * Zpos m / 9 <= Zpos M <= 16 * Zpos m / 9 + 1 /\
      (Zpos M = 16 * Zpos m / 9 + 1 <-> 5 <= (16 * Zpos m) mod 9)) \/
     (s = 1 /\ 2 ^ 53 <= 16 * Zpos m / 9 /\
      16 * Zpos m / 9 - 1 <= 2 * Zpos M <= 16 * Zpos m / 9 + 1 /\
      (2 * Zpos M = 16 * Zpos m / 9 - 1 -> (16 * Zpos m) mod 9 = 0))).
Proof.
  intros Hd He.
  pose proof (digits2_pos_bounds m) as Bm. rewrite Hd in Bm.
  change (2 ^ (53 - 1)) with 4503599627370496 in Bm.
  change (2 ^ 53) with 9007199254740992 in *.
  unfold SFdiv. rewrite binary64_of_Z_9.
  replace (xorb sx false) with sx by now destruct sx.
  rewrite SFdiv_core_binary_9 by assumption.
  pose proof (Z.div_mod (16 * Zpos m) 9 ltac:(lia)) as Hqt.
  pose proof (Z.mod_pos_bound (16 * Zpos m) 9 ltac:(lia)) as Ht.
  set (q := 16 * Zpos m / 9) in *. set (t := (16 * Zpos m) mod 9) in *.
  destruct q as [|qp|qp] eqn:Hq; [lia | | lia].
  destruct (Z.ltb_spec (Zpos qp) 9007199254740992) as [Hlt|Hge].
  - (* 53 digits *)
    assert (Hdq : Zpos (digits2_pos qp) = 53)
      by (apply digits2_pos_unique;
          change (2 ^ (53 - 1)) with 4503599627370496;
          change (2 ^ 53) with 9007199254740992; lia).
    assert (HM : exists M : positive,
               round_nearest_even (Zpos qp) (ninth_location t) = Zpos M /\
               Zpos qp <= Zpos M <= Zpos qp + 1 /\
               (Zpos M = Zpos qp + 1 <-> 5 <= t)).
    { unfold ninth_location.
      destruct (Z.eqb_spec t 0) as [Hz|Hnz]; cbn [round_nearest_even].
      - exists qp. split; [reflexivity | lia].
      - destruct (Z.compare_spec (2 * t) 9) as [Heq|Hl|Hg]; [lia | |].
        + exists qp. split; [reflexivity | lia].
        + exists (qp + 1)%positive. split; [reflexivity | lia]. }
    destruct HM as (M & HM & HMq & HMt).
    assert (HdM : Zpos (digits2_pos M) = 53)
      by (apply digits2_pos_unique;
          change (2 ^ (53 - 1)) with 4503599627370496;
          change (2 ^ 53) with 9007199254740992; lia).
    exists M, 0. split; [| split; [assumption | left; lia]].
    rewrite Z.add_0_r. apply binary_round_aux_53; try assumption. lia.
  - (* 54 digits *)
    assert (Hdq : Zpos (digits2_pos qp) = 54)
      by (apply digits2_pos_unique;
          change (2 ^ (54 - 1)) with 9007199254740992;
          change (2 ^ 54) with 18014398509481984; lia).
    pose proof (Z.div2_odd (Zpos qp)) as Hhalf.
    assert (HM : exists M : positive,
               round_nearest_even (Z.div2 (Zpos qp))
                 (half_location (Zpos qp) (ninth_location t)) = Zpos M /\
               Zpos qp - 1 <= 2 * Zpos M <= Zpos qp + 1 /\
               (2 * Zpos M = Zpos qp - 1 -> t = 0)).
    { unfold half_location, ninth_location.
      destruct (Z.div2 (Zpos qp)) as [|h|h] eqn:Hh;
        [destruct (Z.odd (Zpos qp)); cbn in Hhalf; lia | |
         destruct (Z.odd (Zpos qp)); cbn in Hhalf; lia].
      destruct (Z.odd (Zpos qp)); cbn [Z.b2z] in Hhalf;
        destruct (Z.eqb_spec t 0) as [Hz|Hnz]; cbn [round_nearest_even].
      - destruct (Z.even (Zpos h)).
        + exists h. split; [reflexivity | lia].
        + exists (h + 1)%positive. split; [reflexivity | lia].
      - exists (h + 1)%positive. split; [reflexivity | lia].
      - exists h. split; [reflexivity | lia].
      - exists h. split; [reflexivity | lia]. }
    destruct HM as (M & HM & HMq & HMt).
    assert (HdM : Zpos (digits2_pos M) = 53)
      by (apply digits2_pos_unique;
          change (2 ^ (53 - 1)) with 4503599627370496;
          change (2 ^ 53) with 9007199254740992; lia).
    exists M, 1. split; [| split; [assumption | right; lia]].
    apply binary_round_aux_54; try assumption. lia.
Qed.

(** Multiplying a normalised double by 16 only moves the exponent. *)
Lemma SFmul_16 (sx : bool) (M : positive) (E : Z) :
  Zpos (digits2_pos M) = 53 -> -1000 <= E <= 900 ->
  SFmul 53 1024 (binary64_of_Z 16) (S754_finite sx M E) =
    S754_finite sx M (E + 4).
Proof.
  intros Hd He. rewrite binary64_of_Z_16. unfold SFmul. cbn [xorb].
  pose proof (digits2_pos_bounds M) as BM. rewrite Hd in BM.
  change (2 ^ (53 - 1)) with 4503599627370496 in BM.
  change (2 ^ 53) with 9007199254740992 in BM.
  assert (Hprod : Zpos (digits2_pos (4503599627370496 * M)) = 105).
  { apply digits2_pos_unique. rewrite Pos2Z.inj_mul.
    change (2 ^ (105 - 1)) with (4503599627370496 * 4503599627370496).
    change (2 ^ 105) with (4503599627370496 * 9007199254740992). lia. }
  unfold binary_round_aux, shr_fexp, fexp, emin. cbn [Zdigits2].
  rewrite Hprod.
  replace (Z.max (105 + (-48 + E) - 53) (3 - 1024 - 53) - (-48 + E))
    with 52 by lia.
  cbn [shr_record_of_loc shr].
  change (SpecFloat.iter_pos shr_1 52
            {| shr_m := Zpos (4503599627370496 * M);
               shr_r := false; shr_s := false |})
    with {| shr_m := Zpos M; shr_r := false; shr_s := false |}.
  cbn [shr_m loc_of_shr_record round_nearest_even Zdigits2 shr_record_of_loc].
  rewrite Hd.
  replace (Z.max (53 + (-48 + E + 52) - 53) (3 - 1024 - 53) - (-48 + E + 52))
    with 0 by lia.
  cbn [shr shr_m].
  replace (-48 + E + 52 <=? 1024 - 53) with true
    by (symmetry; apply Z.leb_le; lia).
  f_equal. lia.
Qed.

(** The arithmetic of the two cases: with [16 * n = 9 * k + t0] and the
    scaled quotient [q], the rounded mantissa stays in the interval of
    [k]. *)
Lemma scaled_remainder (t0 P : Z) :
  0 <= t0 < 9 -> 0 < P ->
  (t0 = 0 /\ t0 * P = 0) \/ (0 < t0 /\ P <= t0 * P <= 8 * P).
Proof.
  intros Ht HP. destruct (Z.eq_dec t0 0) as [->|Hne]; [left; lia|].
  right. split; [lia|].
  assert (1 * P <= t0 * P) by (apply Z.mul_le_mono_nonneg_r; lia).
  assert (t0 * P <= 8 * P) by (apply Z.mul_le_mono_nonneg_r; lia).
  lia.
Qed.

Lemma mantissa_interval_53 (a b q t P M t0 : Z) :
  8 <= P -> 9 * a + b = 9 * q + t -> 0 <= t < 9 ->
  (t0 = 0 /\ b = 0) \/ (0 < t0 /\ P <= b <= 8 * P) ->
  q <= M <= q + 1 -> (M = q + 1 <-> 5 <= t) ->
  a <= M < a + P /\ (t0 = 0 -> M = a) /\ (t0 <> 0 -> a < M).
Proof. lia. Qed.

Lemma mantissa_interval_54 (a b q t P M t0 : Z) :
  8 <= P -> 18 * a + 2 * b = 9 * q + t -> 0 <= t < 9 ->
  (t0 = 0 /\ b = 0) \/ (0 < t0 /\ P <= b <= 8 * P) ->
  q - 1 <= 2 * M <= q + 1 -> (2 * M = q - 1 -> t = 0) ->
  a <= M < a + P /\ (t0 = 0 -> M = a) /\ (t0 <> 0 -> a < M).
Proof. lia. Qed.

(** [16 * (n / 9)] on doubles, for a non-zero integer [n] between
    [-(9 * 2^46 + 3)] and [9 * 2^46 + 4]: a finite double below the
    integers' exponent whose floor is the integer [16 * n / 9]. *)
Lemma sixteen_ninths_value (sx : bool) (p : positive) :
  Zpos p < (if sx then 633318697598980 else 633318697598981) ->
  exists (M : positive) (E : Z),
    sixteen_ninths (binary64_of_Z (signed sx p)) = S754_finite sx M E /\
    E < 0 /\
    signed sx M / 2 ^ (- E) = 16 * signed sx p / 9.
Proof.
  intros Hn.
  destruct (Z.ltb_spec (Zpos p) 633318697598976) as [Hlt|Hge].
  2:{ assert (Hcases : Zpos p = 633318697598976 \/ Zpos p = 633318697598977 \/
                       Zpos p = 633318697598978 \/ Zpos p = 633318697598979 \/
                       (Zpos p = 633318697598980 /\ sx = false))
        by (destruct sx; lia).
      destruct Hcases as [Hp|[Hp|[Hp|[Hp|[Hp ->]]]]]; injection Hp as ->;
        try destruct sx; do 2 eexists;
        (split; [vm_compute; reflexivity | split; vm_compute; reflexivity]). }
  clear Hn.
  pose proof (digits2_pos_bounds p) as [Blo Bhi].
  set (d := Zpos (digits2_pos p)) in *.
  assert (Hd : 1 <= d <= 50).
  { split; [unfold d; lia|].
    destruct (Z.le_gt_cases d 50) as [|Hbig]; [assumption|].
    assert (2 ^ 50 <= 2 ^ (d - 1)) by (apply Z.pow_le_mono_r; lia).
    change (2 ^ 50) with 1125899906842624 in *. lia. }
  destruct (binary64_of_Z_signed sx p ltac:(fold d; lia)) as (m & Hof & Hm & Hdm).
  fold d in Hof, Hm.
  destruct (SFdiv_9 sx m (d - 53) Hdm ltac:(lia)) as (M & s & Hdiv & HdM & Hcase).
  assert (Hs : s = 0 \/ s = 1) by (destruct Hcase as [[? _]|[? _]]; auto).
  exists M, (d - 53 - 4 + s + 4).
  split; [| split; [lia|]].
  { unfold sixteen_ninths. rewrite Hof, Hdiv. apply SFmul_16; [assumption | lia]. }
  pose proof (Z.div_mod (16 * Zpos p) 9 ltac:(lia)) as Hk.
  pose proof (Z.mod_pos_bound (16 * Zpos p) 9 ltac:(lia)) as Ht0.
  pose proof (Z.div_mod (16 * Zpos m) 9 ltac:(lia)) as Hq.
  pose proof (Z.mod_pos_bound (16 * Zpos m) 9 ltac:(lia)) as Ht.
  set (k := 16 * Zpos p / 9) in *. set (t0 := (16 * Zpos p) mod 9) in *.
  set (q := 16 * Zpos m / 9) in *. set (t := (16 * Zpos m) mod 9) in *.
  (* the mantissa over the power of two lies in the unit interval of k *)
  assert (Hrange : exists P, 2 ^ (- (d - 53 - 4 + s + 4)) = P /\ 0 < P /\
                     (k * P <= Zpos M < k * P + P /\
                      (t0 = 0 -> Zpos M = k * P) /\
                      (t0 <> 0 -> k * P < Zpos M))).
  { destruct Hcase as [(-> & HMq & HMt)|(-> & Hq53 & HMq & HMt)].
    - replace (- (d - 53 - 4 + 0 + 4)) with (53 - d) by lia.
      set (P := 2 ^ (53 - d)) in *.
      assert (HP : 8 <= P).
      { change 8 with (2 ^ 3). apply Z.pow_le_mono_r; lia. }
      assert (Hab : 9 * (k * P) + t0 * P = 9 * q + t).
      { rewrite <- Hq, Hm.
        replace (16 * (Zpos p * P)) with (16 * Zpos p * P) by ring.
        rewrite Hk. ring. }
      exists P. split; [reflexivity | split; [lia|]].
      apply (mantissa_interval_53 _ (t0 * P) q t); try assumption.
      apply scaled_remainder; [assumption | lia].
    - replace (- (d - 53 - 4 + 1 + 4)) with (52 - d) by lia.
      assert (Hd49 : d <= 49).
      { destruct (Z.eq_dec d 50) as [Hd50|]; [| lia].
        rewrite Hd50 in Hm. change (2 ^ (53 - 50)) with 8 in Hm.
        change (2 ^ 53) with 9007199254740992 in Hq53. lia. }
      set (P := 2 ^ (52 - d)) in *.
      assert (HP : 8 <= P).
      { change 8 with (2 ^ 3). apply Z.pow_le_mono_r; lia. }
      assert (HmP : Zpos m = Zpos p * (2 * P)).
      { rewrite Hm. unfold P. rewrite <- Z.pow_succ_r by lia. do 2 f_equal. lia. }
      assert (Hab : 18 * (k * P) + 2 * (t0 * P) = 9 * q + t).
      { rewrite <- Hq, HmP.
        replace (16 * (Zpos p * (2 * P))) with (16 * Zpos p * (2 * P)) by ring.
        rewrite Hk. ring. }
      exists P. split; [reflexivity | split; [lia|]].
      apply (mantissa_interval_54 _ (t0 * P) q t); try assumption.
      apply scaled_remainder; [assumption | lia]. }
  destruct Hrange as (P & -> & HP & HM & Hz & Hnz).
  clear Hof Hdiv Hm Hdm HdM Hcase Hq Ht Blo Bhi.
  destruct sx; cbn [signed].
  - (* negative: the floor of the opposite is the opposite of the ceiling *)
    change (Zneg M) with (- Zpos M). change (Zneg p) with (- Zpos p).
    destruct (Z.eq_dec t0 0) as [Ht0z|Ht0n].
    + transitivity (- k).
      * symmetry. apply Z.div_unique with (r := 0); [lia|].
        specialize (Hz Ht0z). lia.
      * apply Z.div_unique with (r := 0); lia.
    + transitivity (- (k + 1)).
      * symmetry. apply Z.div_unique with (r := (k + 1) * P - Zpos M); [lia|].
        specialize (Hnz Ht0n). lia.
      * apply Z.div_unique with (r := 9 - t0); lia.
  - symmetry. apply Z.div_unique with (r := Zpos M - k * P); lia.
Qed.

Lemma signed_cases (n : Z) :
  n <> 0 -> exists sx p, n = signed sx p.
Proof.
  destruct n as [|p|p]; [congruence | |]; intros _.
  - now exists false, p.
  - now exists true, p.
Qed.

(** On doubles, [Math.floor(16 * (n / 9))] is the integer [16 * n / 9]
    for every [n] from [-(9 * 2^46 + 3)] to [9 * 2^46 + 4]. *)
Lemma floor_16_ninths_binary64_range (n : Z) :
  -633318697598980 < n < 633318697598981 ->
  floor_16_ninths_binary64 n = Some (16 * n / 9).
Proof.
  intros Hn. destruct (Z.eq_dec n 0) as [->|Hne]; [reflexivity|].
  destruct (signed_cases n Hne) as (sx & p & ->).
  destruct (sixteen_ninths_value sx p) as (M & E & Hv & HE & Hfloor).
  { destruct sx; cbn [signed] in Hn; lia. }
  change (floor_16_ninths_binary64 (signed sx p))
    with (binary64_floor (sixteen_ninths (binary64_of_Z (signed sx p)))).
  rewrite Hv. unfold binary64_floor.
  replace (0 <=? E) with false by (symmetry; apply Z.leb_gt; lia).
  f_equal. exact Hfloor.
Qed.

Lemma Math_floor_sixteen_ninths (n : Z) :
  -633318697598980 < n < 633318697598981 ->
  Math_floor (sixteen_ninths (binary64_of_Z n)) = binary64_of_Z (16 * n / 9).
Proof.
  intros Hn. destruct (Z.eq_dec n 0) as [->|Hne]; [reflexivity|].
  destruct (signed_cases n Hne) as (sx & p & ->).
  destruct (sixteen_ninths_value sx p) as (M & E & Hv & HE & Hfloor).
  { destruct sx; cbn [signed] in Hn; lia. }
  rewrite Hv. unfold Math_floor.
  replace (0 <=? E) with false by (symmetry; apply Z.leb_gt; lia).
  f_equal. exact Hfloor.
Qed.

Lemma SFeqb_finite (s1 s2 : bool) (m1 m2 : positive) (e1 e2 : Z) :
  SFeqb (S754_finite s1 m1 e1) (S754_finite s2 m2 e2) = true <->
  s1 = s2 /\ m1 = m2 /\ e1 = e2.
Proof.
  unfold SFeqb, SFcompare.
  change (Pos.compare_cont Eq m1 m2) with (Pos.compare m1 m2).
  destruct s1, s2, (Z.compare_spec e1 e2), (Pos.compare_spec m1 m2);
    cbn; split; try discriminate; try (intros (? & ? & ?); lia);
    try (intros (? & ? & ?); discriminate); intros _; subst; auto.
Qed.

(** Integers of at most 53 bits are read as doubles without loss: two of
    them are [===] exactly when they are equal. *)
Lemma SFeqb_binary64_of_Z (a b : Z) :
  -9007199254740992 < a < 9007199254740992 ->
  -9007199254740992 < b < 9007199254740992 ->
  SFeqb (binary64_of_Z a) (binary64_of_Z b) = (a =? b).
Proof.
  assert (Hdig : forall p, Zpos p < 9007199254740992 ->
                           Zpos (digits2_pos p) <= 53).
  { intros p Hp. pose proof (digits2_pos_bounds p) as [Blo _].
    destruct (Z.le_gt_cases (Zpos (digits2_pos p)) 53) as [|Hbig]; [assumption|].
    assert (2 ^ 53 <= 2 ^ (Zpos (digits2_pos p) - 1))
      by (apply Z.pow_le_mono_r; lia).
    change (2 ^ 53) with 9007199254740992 in *. lia. }
  intros Ha Hb. destruct (Z.eqb_spec a b) as [<-|Hab].
  - destruct (Z.eq_dec a 0) as [->|Hne]; [reflexivity|].
    destruct (signed_cases a Hne) as (sx & p & ->).
    destruct (binary64_of_Z_signed sx p) as (m & -> & _).
    { apply Hdig. destruct sx; cbn [signed] in Ha; lia. }
    now apply SFeqb_finite.
  - destruct (Z.eq_dec a 0) as [->|Hane], (Z.eq_dec b 0) as [->|Hbne];
      [congruence | | |].
    + destruct (signed_cases b Hbne) as (sx & p & ->).
      destruct (binary64_of_Z_signed sx p) as (m & -> & _); [| now destruct sx].
      apply Hdig. destruct sx; cbn [signed] in Hb; lia.
    + destruct (signed_cases a Hane) as (sx & p & ->).
      destruct (binary64_of_Z_signed sx p) as (m & -> & _); [| now destruct sx].
      apply Hdig. destruct sx; cbn [signed] in Ha; lia.
    + destruct (signed_cases a Hane) as (sa & pa & ->).
      destruct (signed_cases b Hbne) as (sb & pb & ->).
      destruct (binary64_of_Z_signed sa pa) as (ma & -> & Hma & _).
      { apply Hdig. destruct sa; cbn [signed] in Ha; lia. }
      destruct (binary64_of_Z_signed sb pb) as (mb & -> & Hmb & _).
      { apply Hdig. destruct sb; cbn [signed] in Hb; lia. }
      apply not_true_is_false. intros (-> & -> & He)%SFeqb_finite.
      apply Hab. f_equal.
      assert (Hd : Zpos (digits2_pos pa) = Zpos (digits2_pos pb)) by lia.
      rewrite Hd, Hmb in Hma.
      apply Z.mul_cancel_r in Hma; [congruence|].
      apply Z.pow_nonzero; [lia|].
      pose proof (Hdig pb). destruct sb; cbn [signed] in Hb; lia.
Qed.

Lemma aspectRatioOf_rule (w h : Z) :
  -633318697598980 < w < 633318697598981 ->
  -633318697598980 < h < 633318697598981 ->
  aspectRatioOf w h = label_rule w h.
Proof.
  intros Hw Hh. unfold aspectRatioOf, label_rule.
  rewrite !Math_floor_sixteen_ninths by assumption.
  pose proof (Z.div_mod (16 * w) 9 ltac:(lia)).
  pose proof (Z.mod_pos_bound (16 * w) 9 ltac:(lia)).
  pose proof (Z.div_mod (16 * h) 9 ltac:(lia)).
  pose proof (Z.mod_pos_bound (16 * h) 9 ltac:(lia)).
  rewrite !SFeqb_binary64_of_Z by lia.
  reflexivity.
Qed.

Lemma aspectRatioOf_is_label (w h : Z) : is_label (aspectRatioOf w h).
Proof.
  unfold aspectRatioOf, is_label.
  destruct (SFeqb _ _); [auto |].
  destruct (SFeqb _ _); auto.
Qed.

(** With the floors read as integers the labels are the same. *)
Lemma aspectRatioOf_binary64_rule (w h : Z) :
  -633318697598980 < w < 633318697598981 ->
  -633318697598980 < h < 633318697598981 ->
  aspectRatioOf_binary64 w h = Some (label_rule w h).
Proof.
  intros Hw Hh. unfold aspectRatioOf_binary64, label_rule.
  now rewrite !floor_16_ninths_binary64_range by assumption.
Qed.
(* ===================================================================== *)
(** ** Arithmetic of the sources                                          *)
(* ===================================================================== *)

Lemma thumbnail_limit : js_shl 10 20 = 10 * 2 ^ 20.
Proof. reflexivity. Qed.

Lemma video_limit : js_shl 1 30 = 2 ^ 30.
Proof. reflexivity. Qed.

Lemma falsy_true (n : option Z) : falsy n = true <-> n = None \/ n = Some 0.
Proof.
  destruct n as [z|]; simpl.
  - rewrite Z.eqb_eq. split.
    + intros ->. now right.
    + intros [[=] | [= ->]]. reflexivity.
  - split; auto.
Qed.

(** The test of line 107 is true of a stream whose width or height is
    absent or zero. *)
Lemma falsy_dimension (s : StreamEntry) :
  falsy (width s) || falsy (height s) = true <-> dimension_missing_or_zero s.
Proof.
  unfold dimension_missing_or_zero.
  rewrite orb_true_iff, !falsy_true. tauto.
Qed.

(* ===================================================================== *)
(** ** The classifier                                                     *)
(* ===================================================================== *)

Lemma label_rule_is_label (w h : Z) : is_label (label_rule w h).
Proof.
  unfold label_rule, is_label.
  destruct (w =? 16 * h / 9); [auto |].
  destruct (h =? 16 * w / 9); auto.
Qed.

Section ClassifierFacts.
Context {P : Platform}.

Lemma getVideoAspectRatio_world filePath w :
  snd (getVideoAspectRatio filePath w) = spawned filePath w.
Proof.
  unfold getVideoAspectRatio, spawn_ffprobe, bind, emit, throwIf, throw, ret, spawned.
  cbn.
  destruct (exitCode _ =? 0); cbn; [| reflexivity].
  destruct (JSON_parse _) as [parsed|]; cbn; [| reflexivity].
  destruct (streams parsed) as [[|s rest]|]; cbn; try reflexivity.
  destruct (falsy (width s) || falsy (height s)); cbn; [reflexivity |].
  destruct (width s), (height s); reflexivity.
Qed.

Lemma getVideoAspectRatio_result filePath w :
  fst (getVideoAspectRatio filePath w) =
  let proc := ffprobe (fs w !! filePath) in
  if negb (exitCode proc =? 0) then Throw (JsError (stderrText proc))
  else match JSON_parse (stdoutText proc) with
       | None => Throw (SyntaxError "JSON Parse error")
       | Some parsed =>
           match streams parsed with
           | None | Some [] => Throw (JsError "Stream data not found.")
           | Some (s :: _) =>
               match width s, height s with
               | Some wd, Some ht =>
                   if (wd =? 0) || (ht =? 0)
                   then Throw (JsError "Missing stream aspect ratio parameter.")
                   else Ok (aspectRatioOf wd ht)
               | _, _ => Throw (JsError "Missing stream aspect ratio parameter.")
               end
           end
       end.
Proof.
  unfold getVideoAspectRatio, spawn_ffprobe, bind, emit, throwIf, throw, ret.
  cbn.
  destruct (exitCode _ =? 0); cbn; [| reflexivity].
  destruct (JSON_parse _) as [parsed|]; cbn; [| reflexivity].
  destruct (streams parsed) as [[|s rest]|]; cbn; try reflexivity.
  destruct (width s) as [wd|], (height s) as [ht|]; cbn; try reflexivity.
  - destruct ((wd =? 0) || (ht =? 0)); reflexivity.
  - destruct (wd =? 0); reflexivity.
Qed.

Lemma getVideoAspectRatio_label filePath w label :
  fst (getVideoAspectRatio filePath w) = Ok label -> is_label label.
Proof.
  rewrite getVideoAspectRatio_result. cbn zeta.
  destruct (negb _); [discriminate |].
  destruct (JSON_parse _) as [parsed|]; [| discriminate].
  destruct (streams parsed) as [[|s rest]|]; try discriminate.
  destruct (width s) as [wd|]; [| discriminate].
  destruct (height s) as [ht|]; [| discriminate].
  destruct (_ || _); [discriminate |].
  intros [= <-]. apply aspectRatioOf_is_label.
Qed.
End ClassifierFacts.

(* ===================================================================== *)
(** ** Statements about the classifier                                    *)
(* ===================================================================== *)

Section ClassifierClaims.
Context {P : Platform}.

(** C1, amended.  For a probe that exits with status 0 and whose output
    has a first stream of width [w] and height [h], both non-zero, above
    -(9 * 2^46 + 4) = -633318697598980 and below 9 * 2^46 + 5 =
    633318697598981, the classifier returns [landscape] if
    [w = floor(16*h/9)], else [portrait] if [h = floor(16*w/9)], else
    [other]; and whatever the probe printed, a label the classifier returns
    is one of these three. *)
Theorem classifier_follows_rule :
  (forall filePath (w0 : World) parsed s rest w h,
      exitCode (ffprobe (fs w0 !! filePath)) = 0 ->
      JSON_parse (stdoutText (ffprobe (fs w0 !! filePath))) = Some parsed ->
      streams parsed = Some (s :: rest) ->
      width s = Some w -> height s = Some h ->
      w <> 0 -> h <> 0 ->
      -633318697598980 < w < 633318697598981 ->
      -633318697598980 < h < 633318697598981 ->
      fst (getVideoAspectRatio filePath w0) = Ok (label_rule w h)) /\
  (forall filePath (w0 : World) label,
      fst (getVideoAspectRatio filePath w0) = Ok label -> is_label label).
Proof.
  split.
  - intros filePath w0 parsed s rest w h Hexit Hparse Hstreams Hw Hh Hw0 Hh0
      Hwr Hhr.
    rewrite getVideoAspectRatio_result. cbn zeta.
    rewrite Hexit, Hparse, Hstreams, Hw, Hh. cbn.
    apply Z.eqb_neq in Hw0, Hh0. rewrite Hw0, Hh0. cbn.
    now rewrite aspectRatioOf_rule.
  - intros filePath w0 label. apply getVideoAspectRatio_label.
Qed.

(** C8, amended.  The classifier fails exactly when the probe exited
    non-zero, or its output does not parse, or there are no stream entries,
    or the width or height of the first stream is absent or zero.  A
    non-zero exit fails with the captured standard-error text, and in every
    other case the result is one of the three labels. *)
Theorem classifier_failure_cases filePath (w0 : World) :
  let proc := ffprobe (fs w0 !! filePath) in
  let outcome := fst (getVideoAspectRatio filePath w0) in
  ((exists e, outcome = Throw e) <-> probe_rejected dimension_missing_or_zero proc) /\
  (exitCode proc <> 0 -> outcome = Throw (JsError (stderrText proc))) /\
  (~ probe_rejected dimension_missing_or_zero proc ->
   exists label, outcome = Ok label /\ is_label label).
Proof.
  cbn zeta. rewrite getVideoAspectRatio_result. cbn zeta.
  set (proc := ffprobe (fs w0 !! filePath)).
  assert (rejected_case : forall e,
    probe_rejected dimension_missing_or_zero proc ->
    (exitCode proc <> 0 -> e = JsError (stderrText proc)) ->
    ((exists e', Throw (A := string) e = Throw e') <->
     probe_rejected dimension_missing_or_zero proc) /\
    (exitCode proc <> 0 -> Throw (A := string) e = Throw (JsError (stderrText proc))) /\
    (~ probe_rejected dimension_missing_or_zero proc ->
     exists label, Throw e = Ok label /\ is_label label)).
  { intros e HR He. split; [| split].
    - split; [intros _; exact HR | intros _; eauto].
    - intros Hx. now rewrite (He Hx).
    - intros HnR. destruct (HnR HR). }
  assert (first_case : forall d s rest,
    JSON_parse (stdoutText proc) = Some d ->
    streams d = Some (s :: rest) ->
    dimension_missing_or_zero s ->
    probe_rejected dimension_missing_or_zero proc).
  { intros d s rest Hd Hs Hz. right; right. exists d. split; [exact Hd |].
    right. exists s. unfold first_stream. rewrite Hs. auto. }
  destruct (Z.eqb_spec (exitCode proc) 0) as [Hexit|Hexit]; cbn.
  2: { apply rejected_case; [left; exact Hexit | reflexivity]. }
  destruct (JSON_parse (stdoutText proc)) as [d|] eqn:Hparse.
  2: { apply rejected_case; [right; left; exact Hparse | congruence]. }
  destruct (streams d) as [[|s rest]|] eqn:Hstreams.
  1, 3: apply rejected_case; [| congruence];
    right; right; exists d; split; [exact Hparse |]; left;
    unfold no_stream_entries; auto.
  unfold dimension_missing_or_zero in first_case.
  destruct (width s) as [w|] eqn:Hw, (height s) as [h|] eqn:Hh; cbn.
  2-4: apply rejected_case; [| congruence];
    apply (first_case d s rest eq_refl Hstreams); rewrite ?Hw, ?Hh; auto.
  destruct (Z.eqb_spec w 0) as [->|Hw0]; cbn.
  { apply rejected_case; [| congruence].
    apply (first_case d s rest eq_refl Hstreams). rewrite Hw. auto. }
  destruct (Z.eqb_spec h 0) as [->|Hh0]; cbn.
  { apply rejected_case; [| congruence].
    apply (first_case d s rest eq_refl Hstreams). rewrite Hh. auto. }
  split; [| split].
  - split.
    + intros [e [=]].
    + unfold probe_rejected, no_stream_entries, first_stream, dimension_missing_or_zero.
      rewrite Hparse.
      intros [? | [[=] | (d' & [= <-] & [[?|?] | (s' & Hs & Hz)])]];
        try congruence.
      rewrite Hstreams in Hs. injection Hs as <-.
      rewrite Hw, Hh in Hz. destruct Hz as [[=] | [[=] | [[=] | [=]]]]; congruence.
  - intros Hx. congruence.
  - intros _. eexists; split; [reflexivity |].
    apply aspectRatioOf_is_label.
Qed.
End ClassifierClaims.

(** C1 as stated fails at both ends.  On a first stream of width 0 and
    height 0 the rule gives [landscape], since 0 = floor(16*0/9), and the
    classifier throws.  On a first stream of width 2001599834386889 and
    height 1125899906842625 the classifier returns [landscape], since on
    doubles [Math.floor(16 * (h / 9))] is 2001599834386889, while
    floor(16*h/9) is 2001599834386888 and the rule gives [other]. *)
Lemma classifier_departs_from_rule :
  fst (getVideoAspectRatio (P := Demo.platform) Demo.temp_path
         (Demo.with_file "clip 0x0"))
  = Throw (JsError "Missing stream aspect ratio parameter.") /\
  label_rule 0 0 = "landscape" /\
  fst (getVideoAspectRatio (P := Lab.platform) "/c.mp4" Lab.immense_clip)
  = Ok "landscape" /\
  floor_16_ninths_binary64 1125899906842625 = Some 2001599834386889 /\
  16 * 1125899906842625 / 9 = 2001599834386888 /\
  label_rule 2001599834386889 1125899906842625 = "other".
Proof.
  repeat split; vm_compute; reflexivity.
Qed.

(** C1, amended, on the concrete platform: a 1920x1080 clip on the disk. *)
Lemma classifier_follows_rule_witness :
  fst (getVideoAspectRatio (P := Demo.platform) Demo.temp_path
         (Demo.with_file "clip 1920x1080")) = Ok (label_rule 1920 1080).
Proof.
  apply (proj1 (classifier_follows_rule (P := Demo.platform))
           Demo.temp_path (Demo.with_file "clip 1920x1080")
           (mkProbe (Some [mkStream (Some 1920) (Some 1080)]))
           (mkStream (Some 1920) (Some 1080)) [] 1920 1080);
    first [ reflexivity | lia ].
Defined.

(** C2.  The classifier maps 1920x1080 to [landscape], 1080x1920 to
    [portrait] and 640x480 to [other]: as the rule of lines 111-123 computes
    them on doubles, with the floors compared as doubles and as integers,
    and as [getVideoAspectRatio] returns them when the probe reports these
    dimensions for the file. *)
Theorem classifier_examples :
  aspectRatioOf 1920 1080 = "landscape" /\
  aspectRatioOf 1080 1920 = "portrait" /\
  aspectRatioOf 640 480 = "other" /\
  aspectRatioOf_binary64 1920 1080 = Some "landscape" /\
  aspectRatioOf_binary64 1080 1920 = Some "portrait" /\
  aspectRatioOf_binary64 640 480 = Some "other" /\
  fst (getVideoAspectRatio (P := Demo.platform) Demo.temp_path
         (Demo.with_file "clip 1920x1080")) = Ok "landscape" /\
  fst (getVideoAspectRatio (P := Demo.platform) Demo.temp_path
         (Demo.with_file "clip 1080x1920")) = Ok "portrait" /\
  fst (getVideoAspectRatio (P := Demo.platform) Demo.temp_path
         (Demo.with_file "clip 640x480")) = Ok "other".
Proof.
  repeat split; vm_compute; reflexivity.
Qed.

(** C8 as stated fails on a stream of width 0 and height 0: the probe exits
    with status 0, its output parses, there is a first stream and it lacks
    neither dimension, yet the classifier throws. *)
Lemma classifier_rejects_zero_dimensions :
  fst (getVideoAspectRatio (P := Demo.platform) Demo.temp_path
         (Demo.with_file "clip 0x0"))
  = Throw (JsError "Missing stream aspect ratio parameter.") /\
  ~ probe_rejected (P := Demo.platform) lacks_dimension
      (@ffprobe Demo.platform (fs (Demo.with_file "clip 0x0") !! Demo.temp_path)).
Proof.
  split; [vm_compute; reflexivity |].
  unfold probe_rejected, no_stream_entries, first_stream, lacks_dimension.
  intros [H | [H | (d & Hd & [[H|H] | (s & Hs & [H|H])])]];
    vm_compute in *; simplify_eq.
Qed.

(* ===================================================================== *)
(** ** Steps of the handlers                                              *)
(* ===================================================================== *)

Section StepFacts.
Context {P : Platform}.

Lemma identified_run cfg req videoId userId w {A} (k : string -> string -> M A) :
  identified cfg req videoId userId ->
  (videoId <- require_videoId req ;;
   token <- lift (getBearerToken (headers req)) ;;
   userId <- lift (validateJWT token (jwtSecret cfg)) ;;
   k videoId userId) w = k videoId userId w.
Proof.
  intros (Hid & Hne & token & Htok & Hjwt).
  unfold bind, require_videoId, lift, ret.
  rewrite Hid. apply String.eqb_neq in Hne. rewrite Hne, Htok, Hjwt. reflexivity.
Qed.

Lemma carries_file_run req field file e w {A} (k : File -> M A) :
  carries_file req field file ->
  (formData <- req_formData req ;;
   file <- require_file formData field e ;;
   k file) w = k file w.
Proof.
  intros (fd & Hbody & Hget).
  unfold bind, req_formData, require_file, ret. now rewrite Hbody, Hget.
Qed.

Lemma db_getVideo_run videoId w {A} (k : option Video -> M A) :
  (found <- db_getVideo videoId ;; k found) w = k (getVideo (db w) videoId) w.
Proof. reflexivity. Qed.

Lemma throwIf_false_run c e w {A} (k : M A) :
  c = false -> (throwIf c e ;; k) w = k w.
Proof. intros ->. reflexivity. Qed.

Lemma throwIf_true_run c e w {A} (k : M A) :
  c = true -> (throwIf c e ;; k) w = (Throw e, w).
Proof. intros ->. reflexivity. Qed.
End StepFacts.

(* ===================================================================== *)
(** ** Runs of the video handlers                                         *)
(* ===================================================================== *)

Section VideoRuns.
Context {P : Platform}.

(** Past the checks, the first variant is its last seven statements. *)
Lemma handlerUploadVideo_passes cfg req w videoId video file :
  passes_video_checks cfg req w videoId video file ->
  handlerUploadVideo cfg req w =
  (let filename := video_filename videoId in
   let path := video_temp_path cfg videoId in
   Bun_write path file ;;
   aspectRatio <- getVideoAspectRatio path ;;
   let key := aspectRatio ++ "/" ++ filename in
   s3_write (mkS3Object key (s3Bucket cfg) path "video/mp4") ;;
   let video' := set_videoURL (getS3AssetURL cfg key) video in
   file_delete path ;;
   db_updateVideo video' ;;
   ret (respondWithJSON 200 video')) w.
Proof.
  intros ((Hident & Hget) & Hfile & Hsize & Htype).
  unfold handlerUploadVideo.
  rewrite (identified_run cfg req videoId (userID video) w _ Hident).
  rewrite db_getVideo_run, Hget.
  rewrite throwIf_false_run by now rewrite String.eqb_refl.
  rewrite (carries_file_run req "video" file _ w _ Hfile).
  rewrite throwIf_false_run by (rewrite video_limit; lia).
  rewrite Htype.
  rewrite throwIf_false_run by reflexivity.
  rewrite throwIf_false_run by reflexivity.
  reflexivity.
Qed.

(** Before the checks are passed nothing has been done: the handler
    either throws in the world it started in, or the request passes. *)
Lemma handlerUploadVideo_cases cfg req w :
  (exists e, handlerUploadVideo cfg req w = (Throw e, w)) \/
  (exists videoId video file, passes_video_checks cfg req w videoId video file).
Proof.
  unfold handlerUploadVideo, bind, require_videoId, lift, db_getVideo, throwIf,
    req_formData, require_file, throw, ret.
  destruct (params_videoId req) as [videoId|] eqn:Hid; [| left; eexists; reflexivity].
  destruct (String.eqb_spec videoId "") as [|Hne]; [left; eexists; reflexivity |].
  destruct (getBearerToken (headers req)) as [token|e] eqn:Htok;
    [| left; eexists; reflexivity].
  destruct (validateJWT token (jwtSecret cfg)) as [userId|e] eqn:Hjwt;
    [| left; eexists; reflexivity].
  destruct (getVideo (db w) videoId) as [video|] eqn:Hget;
    [| left; eexists; reflexivity].
  destruct (String.eqb_spec (userID video) userId) as [<-|Hown];
    [| left; eexists; reflexivity].
  destruct (body req) as [fd|] eqn:Hbody; [| left; eexists; reflexivity].
  destruct (formData_get fd "video") as [[s|file]|] eqn:Hfile;
    [left; eexists; reflexivity | | left; eexists; reflexivity].
  destruct (Z.gtb_spec (file_size file) (js_shl 1 30)) as [Hbig|Hsize];
    [left; eexists; reflexivity |].
  destruct (String.eqb_spec (file_type file) "") as [|Hty];
    [left; eexists; reflexivity |].
  destruct (String.eqb_spec (file_type file) "video/mp4") as [Hmp4|Hmp4];
    [| left; eexists; reflexivity].
  right. exists videoId, video, file.
  rewrite video_limit in Hsize.
  unfold passes_video_checks, authorised, identified, carries_file.
  eauto 12.
Qed.

(** What the first variant does once the upload is on the disk, by the
    result of the classifier. *)
Lemma handlerUploadVideo_outcome cfg req w videoId video file :
  passes_video_checks cfg req w videoId video file ->
  disk_fault (faults w) = None ->
  let path := video_temp_path cfg videoId in
  let w1 := snd (Bun_write path file w) in
  match fst (getVideoAspectRatio path w1) with
  | Throw e => handlerUploadVideo cfg req w = (Throw e, spawned path w1)
  | Ok label =>
      let key := label ++ "/" ++ video_filename videoId in
      let obj := mkS3Object key (s3Bucket cfg) path "video/mp4" in
      let video' := set_videoURL (getS3AssetURL cfg key) video in
      handlerUploadVideo cfg req w =
      (match persist_fault (faults w) with
       | Some msg => Throw (SystemError msg)
       | None => Ok (respondWithJSON 200 video')
       end,
       mkWorld (delete path (<[path := file_data file]> (fs w)))
               (match upload_fault (faults w) with
                | Some _ => s3 w
                | None => s3 w ++ [obj]
                end)
               (match persist_fault (faults w) with
                | Some _ => db w
                | None => updateVideo (db w) video'
                end)
               (faults w)
               (trace w ++ [BunWrite path; BunSpawn (ffprobe_argv path);
                            S3Write obj; FileDelete path; UpdateVideo video']))
  end.
Proof.
  intros Hpass Hdisk path w1.
  assert (Hw1 : Bun_write path file w =
                (Ok tt, mkWorld (<[path := file_data file]> (fs w)) (s3 w) (db w)
                                (faults w) (trace w ++ [BunWrite path]))).
  { unfold Bun_write, bind, emit. cbn. now rewrite Hdisk. }
  assert (Hw1' : mkWorld (<[path := file_data file]> (fs w)) (s3 w) (db w)
                         (faults w) (trace w ++ [BunWrite path]) = w1)
    by (unfold w1; now rewrite Hw1).
  pose proof (getVideoAspectRatio_world path w1) as Hworld.
  destruct (getVideoAspectRatio path w1) as [[label|e] w2] eqn:Hprobe;
    cbn in Hworld |- *; subst w2.
  - rewrite (handlerUploadVideo_passes _ _ _ _ _ _ Hpass). cbn zeta.
    fold path. unfold bind. rewrite Hw1. cbv beta iota. rewrite Hw1', Hprobe.
    cbv beta iota.
    unfold s3_write, file_delete, db_updateVideo, bind, emit, ret, spawned.
    rewrite <- Hw1'. cbn.
    destruct (upload_fault (faults w)) eqn:Hup,
             (persist_fault (faults w)) eqn:Hper;
      cbn; rewrite ?Hup, ?Hper; cbn; rewrite ?Hup, ?Hper; cbn;
      rewrite <- ?app_assoc; reflexivity.
  - rewrite (handlerUploadVideo_passes _ _ _ _ _ _ Hpass). cbn zeta.
    fold path. unfold bind. rewrite Hw1. cbv beta iota. rewrite Hw1', Hprobe.
    reflexivity.
Qed.

(** A disk that refuses the upload: the handler stops at [Bun.write]. *)
Lemma handlerUploadVideo_disk_fault cfg req w videoId video file msg :
  passes_video_checks cfg req w videoId video file ->
  disk_fault (faults w) = Some msg ->
  handlerUploadVideo cfg req w =
  (Throw (SystemError msg),
   mkWorld (fs w) (s3 w) (db w) (faults w)
           (trace w ++ [BunWrite (video_temp_path cfg videoId)])).
Proof.
  intros Hpass Hdisk.
  rewrite (handlerUploadVideo_passes _ _ _ _ _ _ Hpass). cbn zeta.
  unfold bind, Bun_write, emit. cbn. now rewrite Hdisk.
Qed.

(** Past the checks, the second variant is its last six statements. *)
Lemma handlerUploadVideo2_passes cfg req w videoId video file :
  passes_video_checks cfg req w videoId video file ->
  handlerUploadVideo2 cfg req w =
  (let filename := video_filename videoId in
   let path := video_temp_path cfg videoId in
   Bun_write path file ;;
   s3_write (mkS3Object filename (s3Bucket cfg) path "video/mp4") ;;
   let video' := set_videoURL (getS3AssetURL cfg filename) video in
   file_delete path ;;
   db_updateVideo video' ;;
   ret (respondWithJSON 200 video')) w.
Proof.
  intros ((Hident & Hget) & Hfile & Hsize & Htype).
  unfold handlerUploadVideo2.
  rewrite (identified_run cfg req videoId (userID video) w _ Hident).
  rewrite db_getVideo_run, Hget.
  rewrite throwIf_false_run by now rewrite String.eqb_refl.
  rewrite (carries_file_run req "video" file _ w _ Hfile).
  rewrite throwIf_false_run by (rewrite video_limit; lia).
  rewrite Htype.
  rewrite throwIf_false_run by reflexivity.
  rewrite throwIf_false_run by reflexivity.
  reflexivity.
Qed.

Lemma handlerUploadVideo2_outcome cfg req w videoId video file :
  passes_video_checks cfg req w videoId video file ->
  disk_fault (faults w) = None ->
  let path := video_temp_path cfg videoId in
  let key := video_filename videoId in
  let obj := mkS3Object key (s3Bucket cfg) path "video/mp4" in
  let video' := set_videoURL (getS3AssetURL cfg key) video in
  handlerUploadVideo2 cfg req w =
  (match persist_fault (faults w) with
   | Some msg => Throw (SystemError msg)
   | None => Ok (respondWithJSON 200 video')
   end,
   mkWorld (delete path (<[path := file_data file]> (fs w)))
           (match upload_fault (faults w) with
            | Some _ => s3 w
            | None => s3 w ++ [obj]
            end)
           (match persist_fault (faults w) with
            | Some _ => db w
            | None => updateVideo (db w) video'
            end)
           (faults w)
           (trace w ++ [BunWrite path; S3Write obj; FileDelete path;
                        UpdateVideo video'])).
Proof.
  intros Hpass Hdisk path key obj video'.
  rewrite (handlerUploadVideo2_passes _ _ _ _ _ _ Hpass). cbn zeta.
  unfold bind, Bun_write, s3_write, file_delete, db_updateVideo, emit, ret.
  cbn. rewrite Hdisk. cbn.
  destruct (upload_fault (faults w)) eqn:Hup,
           (persist_fault (faults w)) eqn:Hper;
    cbn; rewrite ?Hup, ?Hper; cbn; rewrite ?Hup, ?Hper; cbn;
    rewrite <- ?app_assoc; reflexivity.
Qed.

(** The second variant never spawns the probe. *)
Lemma handlerUploadVideo2_no_spawn cfg req w :
  spawns_of (trace (snd (handlerUploadVideo2 cfg req w))) = spawns_of (trace w).
Proof.
  unfold handlerUploadVideo2, bind, require_videoId, lift, db_getVideo, throwIf,
    req_formData, require_file, throw, ret.
  destruct (params_videoId req) as [videoId|]; [| reflexivity].
  destruct (String.eqb videoId ""); [reflexivity |].
  destruct (getBearerToken (headers req)) as [token|e]; [| reflexivity].
  destruct (validateJWT token (jwtSecret cfg)) as [userId|e]; [| reflexivity].
  destruct (getVideo (db w) videoId) as [video|]; [| reflexivity].
  destruct (String.eqb (userID video) userId); [| reflexivity].
  destruct (body req) as [fd|]; [| reflexivity].
  destruct (formData_get fd "video") as [[s|file]|]; try reflexivity.
  destruct (file_size file >? js_shl 1 30); [reflexivity |].
  destruct (String.eqb (file_type file) ""); [reflexivity |].
  destruct (String.eqb (file_type file) "video/mp4"); [| reflexivity].
  unfold Bun_write, s3_write, file_delete, db_updateVideo, bind, emit, ret. cbn.
  unfold spawns_of.
  destruct (disk_fault (faults w)) eqn:Hdisk; cbn; rewrite ?Hdisk; cbn.
  { rewrite omap_app. cbn. apply app_nil_r. }
  destruct (upload_fault (faults w)) eqn:Hup,
           (persist_fault (faults w)) eqn:Hper;
    cbn; rewrite ?Hup, ?Hper; cbn; rewrite ?Hup, ?Hper; cbn;
    rewrite !omap_app; cbn; rewrite !app_nil_r; reflexivity.
Qed.

(** A successful run of the first variant, read backwards. *)
Lemma handlerUploadVideo_Ok cfg req w resp w' :
  handlerUploadVideo cfg req w = (Ok resp, w') ->
  exists videoId video file label,
    passes_video_checks cfg req w videoId video file /\
    disk_fault (faults w) = None /\
    persist_fault (faults w) = None /\
    let path := video_temp_path cfg videoId in
    let key := label ++ "/" ++ video_filename videoId in
    let obj := mkS3Object key (s3Bucket cfg) path "video/mp4" in
    let video' := set_videoURL (getS3AssetURL cfg key) video in
    fst (getVideoAspectRatio path (snd (Bun_write path file w))) = Ok label /\
    resp = respondWithJSON 200 video' /\
    w' = mkWorld (delete path (<[path := file_data file]> (fs w)))
                 (match upload_fault (faults w) with
                  | Some _ => s3 w
                  | None => s3 w ++ [obj]
                  end)
                 (updateVideo (db w) video')
                 (faults w)
                 (trace w ++ [BunWrite path; BunSpawn (ffprobe_argv path);
                              S3Write obj; FileDelete path; UpdateVideo video']).
Proof.
  intros Hrun.
  destruct (handlerUploadVideo_cases cfg req w)
    as [[e He] | (videoId & video & file & Hpass)]; [congruence |].
  exists videoId, video, file.
  destruct (disk_fault (faults w)) as [msg|] eqn:Hdisk.
  { rewrite (handlerUploadVideo_disk_fault _ _ _ _ _ _ _ Hpass Hdisk) in Hrun.
    discriminate. }
  pose proof (handlerUploadVideo_outcome _ _ _ _ _ _ Hpass Hdisk) as Hout.
  cbn zeta in Hout.
  destruct (fst (getVideoAspectRatio _ _)) as [label|e] eqn:Hprobe.
  2: { rewrite Hout in Hrun. discriminate. }
  exists label. rewrite Hout in Hrun.
  destruct (persist_fault (faults w)) as [msg|]; [discriminate |].
  injection Hrun as <- <-. cbn zeta. auto 10.
Qed.
End VideoRuns.

(* ===================================================================== *)
(** ** Runs of the thumbnail handler                                      *)
(* ===================================================================== *)

Section ThumbnailRuns.
Context {P : Platform}.

Lemma console_log_run args w {A} (k : M A) :
  (console_log args ;; k) w =
  k (mkWorld (fs w) (s3 w) (db w) (faults w) (trace w ++ [ConsoleLog args])).
Proof. reflexivity. Qed.

(** For the owner of the record and a form with a file in [thumbnail],
    the handler is its statements from the size check on, run after the
    log line. *)
Lemma handlerUploadThumbnail_authorised cfg req w videoId video file :
  authorised cfg req w videoId video ->
  carries_file req "thumbnail" file ->
  handlerUploadThumbnail cfg req w =
  (throwIf (file_size file >? js_shl 10 20)
           (BadRequestError "Thumbnail file size must be < 10MB") ;;
   throwIf (String.eqb (file_type file) "")
           (BadRequestError "Missing Content-Type for thumbnail") ;;
   let filename := videoId ++ mediaTypeToExt (file_type file) in
   Bun_write (getAssetDiskPath cfg filename) file ;;
   let video' := set_thumbnailURL (getAssetURL cfg filename) video in
   db_updateVideo video' ;;
   ret (respondWithJSON 200 video'))
    (mkWorld (fs w) (s3 w) (db w) (faults w)
       (trace w ++ [ConsoleLog ["uploading thumbnail for video"; videoId;
                                "by user"; userID video]])).
Proof.
  intros (Hident & Hget) Hfile.
  unfold handlerUploadThumbnail.
  rewrite (identified_run cfg req videoId (userID video) w _ Hident).
  rewrite console_log_run, db_getVideo_run. cbn [db]. rewrite Hget.
  rewrite throwIf_false_run by now rewrite String.eqb_refl.
  rewrite (carries_file_run req "thumbnail" file _ _ _ Hfile).
  reflexivity.
Qed.

(** A successful run, read backwards. *)
Lemma handlerUploadThumbnail_Ok cfg req w resp w' :
  handlerUploadThumbnail cfg req w = (Ok resp, w') ->
  exists videoId video file,
    passes_thumbnail_checks cfg req w videoId video file /\
    let filename := videoId ++ mediaTypeToExt (file_type file) in
    let path := getAssetDiskPath cfg filename in
    let video' := set_thumbnailURL (getAssetURL cfg filename) video in
    resp = respondWithJSON 200 video' /\
    w' = mkWorld (<[path := file_data file]> (fs w)) (s3 w)
                 (updateVideo (db w) video') (faults w)
                 (trace w ++ [ConsoleLog ["uploading thumbnail for video"; videoId;
                                          "by user"; userID video];
                              BunWrite path; UpdateVideo video']).
Proof.
  unfold handlerUploadThumbnail, bind, require_videoId, lift, console_log,
    db_getVideo, throwIf, req_formData, require_file, Bun_write, db_updateVideo,
    emit, throw, ret.
  destruct (params_videoId req) as [videoId|] eqn:Hid; [| discriminate].
  destruct (String.eqb_spec videoId "") as [|Hne]; [discriminate |].
  destruct (getBearerToken (headers req)) as [token|e] eqn:Htok; [| discriminate].
  destruct (validateJWT token (jwtSecret cfg)) as [userId|e] eqn:Hjwt;
    [| discriminate].
  cbn.
  destruct (getVideo (db w) videoId) as [video|] eqn:Hget; [| discriminate].
  destruct (String.eqb_spec (userID video) userId) as [<-|Hown]; [| discriminate].
  cbn.
  destruct (body req) as [fd|] eqn:Hbody; [| discriminate].
  destruct (formData_get fd "thumbnail") as [[s|file]|] eqn:Hfile;
    [discriminate | | discriminate].
  destruct (Z.gtb_spec (file_size file) (js_shl 10 20)) as [Hbig|Hsize];
    [discriminate |].
  destruct (String.eqb_spec (file_type file) "") as [|Hty]; [discriminate |].
  cbn.
  destruct (disk_fault (faults w)) eqn:Hdisk; cbn; rewrite ?Hdisk; [discriminate |].
  cbn.
  destruct (persist_fault (faults w)) eqn:Hper; cbn; rewrite ?Hper; [discriminate |].
  intros [= <- <-].
  exists videoId, video, file. rewrite thumbnail_limit in Hsize.
  unfold passes_thumbnail_checks, authorised, identified, carries_file.
  rewrite <- !app_assoc. cbn.
  split; [eauto 12 | split; reflexivity].
Qed.
End ThumbnailRuns.

(* ===================================================================== *)
(** ** Statements about the handlers                                      *)
(* ===================================================================== *)

Section HandlerClaims.
Context {P : Platform}.

(** C3, amended.  A video upload that carries in the field [video] a file
    whose declared media type is not exactly [video/mp4] is always refused
    before anything is done.  It fails with BadRequest, status 400, when
    the video id is missing and when the request comes from the owner of
    the record (token valid, record found, caller is its owner), whatever
    the size of the file.  Otherwise it fails with the error of the earlier
    check that does not pass: the error of the token validator for a token
    that is missing or does not verify, NotFound (404) for a video that
    does not exist, Forbidden (403) for a caller who is not the owner. *)
Theorem non_mp4_rejected_after_checks cfg req (w : World) file :
  carries_file req "video" file ->
  file_type file <> "video/mp4" ->
  (exists e, handlerUploadVideo cfg req w = (Throw e, w)) /\
  (forall videoId video,
      authorised cfg req w videoId video ->
      exists msg,
        handlerUploadVideo cfg req w = (Throw (BadRequestError msg), w) /\
        http_status (BadRequestError msg) = 400) /\
  (params_videoId req = None \/ params_videoId req = Some "" ->
   handlerUploadVideo cfg req w = (Throw (BadRequestError "Invalid video ID"), w) /\
   http_status (BadRequestError "Invalid video ID") = 400) /\
  (forall videoId e,
      params_videoId req = Some videoId -> videoId <> "" ->
      (getBearerToken (headers req) = Throw e \/
       exists token, getBearerToken (headers req) = Ok token /\
                     validateJWT token (jwtSecret cfg) = Throw e) ->
      handlerUploadVideo cfg req w = (Throw e, w)) /\
  (forall videoId userId,
      identified cfg req videoId userId ->
      getVideo (db w) videoId = None ->
      handlerUploadVideo cfg req w
      = (Throw (NotFoundError "Couldn't find video"), w) /\
      http_status (NotFoundError "Couldn't find video") = 404) /\
  (forall videoId userId video,
      identified cfg req videoId userId ->
      getVideo (db w) videoId = Some video ->
      userID video <> userId ->
      handlerUploadVideo cfg req w
      = (Throw (UserForbiddenError "You do not have access to edit this video"), w) /\
      http_status (UserForbiddenError "You do not have access to edit this video")
      = 403).
Proof.
  intros Hfile Htype. repeat apply conj.
  - destruct (handlerUploadVideo_cases cfg req w)
      as [Hthrow | (videoId & video & file' & _ & Hfile' & _ & Hmp4)];
      [exact Hthrow |].
    exfalso. apply Htype.
    destruct Hfile as (fd & Hbody & Hget), Hfile' as (fd' & Hbody' & Hget').
    congruence.
  - intros videoId video (Hident & Hget).
    unfold handlerUploadVideo.
    rewrite (identified_run cfg req videoId (userID video) w _ Hident).
    rewrite db_getVideo_run, Hget.
    rewrite throwIf_false_run by now rewrite String.eqb_refl.
    rewrite (carries_file_run req "video" file _ w _ Hfile).
    destruct (Z.gtb_spec (file_size file) (js_shl 1 30)) as [Hbig|Hsmall].
    { eexists. split; [| reflexivity]. now apply throwIf_true_run. }
    rewrite throwIf_false_run by reflexivity.
    destruct (String.eqb_spec (file_type file) "") as [Hempty|Hempty].
    + eexists. split; [| reflexivity].
      now apply throwIf_true_run.
    + rewrite throwIf_false_run by reflexivity.
      eexists. split; [| reflexivity].
      apply throwIf_true_run. apply negb_true_iff. now apply String.eqb_neq.
  - intros Hid. split; [| reflexivity].
    unfold handlerUploadVideo, bind, require_videoId, throw.
    destruct Hid as [-> | ->]; reflexivity.
  - intros videoId e Hid Hne Hauth.
    unfold handlerUploadVideo, bind, require_videoId, lift, ret.
    rewrite Hid. apply String.eqb_neq in Hne. rewrite Hne.
    destruct Hauth as [-> | (token & -> & ->)]; reflexivity.
  - intros videoId userId Hident Hget. split; [| reflexivity].
    unfold handlerUploadVideo.
    rewrite (identified_run cfg req videoId userId w _ Hident).
    now rewrite db_getVideo_run, Hget.
  - intros videoId userId video Hident Hget Hown. split; [| reflexivity].
    unfold handlerUploadVideo.
    rewrite (identified_run cfg req videoId userId w _ Hident).
    rewrite db_getVideo_run, Hget.
    apply throwIf_true_run. apply String.eqb_neq in Hown. now rewrite Hown.
Qed.

(** C5.  After a successful video upload the object was sent to the bucket
    under the key made of the label the classifier returned for the
    temporary file, a slash and [videoId.mp4]; and the video URL of the
    record that is returned, passed to [updateVideo] and stored is
    [getS3AssetURL] of the configuration and that same key. *)
Theorem video_storage_key cfg req (w : World) resp w' :
  mediaTypeToExt "video/mp4" = ".mp4" ->
  handlerUploadVideo cfg req w = (Ok resp, w') ->
  exists videoId video file label,
    passes_video_checks cfg req w videoId video file /\
    let path := getAssetDiskPath cfg (videoId ++ ".mp4") in
    let key := label ++ "/" ++ videoId ++ ".mp4" in
    fst (getVideoAspectRatio path (snd (Bun_write path file w))) = Ok label /\
    is_label label /\
    uploads_of (trace w') =
      (uploads_of (trace w) ++ [mkS3Object key (s3Bucket cfg) path "video/mp4"])%list /\
    videoURL (payload resp) = Some (getS3AssetURL cfg key) /\
    payload resp = set_videoURL (getS3AssetURL cfg key) video /\
    updates_of (trace w') = (updates_of (trace w) ++ [payload resp])%list /\
    db w' = updateVideo (db w) (payload resp).
Proof.
  intros Hext Hrun.
  apply handlerUploadVideo_Ok in Hrun
    as (videoId & video & file & label & Hpass & Hdisk & Hper & Hrun).
  cbn zeta in Hrun. unfold video_temp_path, video_filename in Hrun.
  rewrite Hext in Hrun. destruct Hrun as (Hprobe & -> & ->).
  exists videoId, video, file, label. cbn zeta.
  split; [exact Hpass |]. split; [exact Hprobe |].
  split.
  { exact (getVideoAspectRatio_label _ _ _ Hprobe). }
  cbn [trace db payload respondWithJSON videoURL set_videoURL].
  unfold uploads_of, updates_of. rewrite !omap_app. cbn.
  auto 10.
Qed.

(** C6.  When the token verifies as a user who is not the owner of the
    record, each handler fails with Forbidden, status 403, and has written
    nothing: disk, bucket and database are as before and no writing call
    was made (the thumbnail handler has printed its log line, the video
    handlers have done nothing at all). *)
Theorem forbidden_without_write cfg req (w : World) videoId userId video :
  identified cfg req videoId userId ->
  getVideo (db w) videoId = Some video ->
  userID video <> userId ->
  let denied := UserForbiddenError "You do not have access to edit this video" in
  http_status denied = 403 /\
  (exists w',
      handlerUploadThumbnail cfg req w = (Throw denied, w') /\
      fs w' = fs w /\ s3 w' = s3 w /\ db w' = db w /\
      List.filter is_write (trace w') = List.filter is_write (trace w) /\
      updates_of (trace w') = updates_of (trace w)) /\
  handlerUploadVideo cfg req w = (Throw denied, w) /\
  handlerUploadVideo2 cfg req w = (Throw denied, w).
Proof.
  intros Hident Hget Hown denied.
  apply String.eqb_neq in Hown.
  split; [reflexivity |]. split; [| split].
  - eexists. split.
    + unfold handlerUploadThumbnail.
      rewrite (identified_run cfg req videoId userId w _ Hident).
      rewrite console_log_run, db_getVideo_run. cbn [db]. rewrite Hget.
      apply throwIf_true_run. now rewrite Hown.
    + cbn. unfold updates_of.
      rewrite List.filter_app, omap_app. cbn. rewrite !app_nil_r. auto.
  - unfold handlerUploadVideo.
    rewrite (identified_run cfg req videoId userId w _ Hident).
    rewrite db_getVideo_run, Hget.
    apply throwIf_true_run. now rewrite Hown.
  - unfold handlerUploadVideo2.
    rewrite (identified_run cfg req videoId userId w _ Hident).
    rewrite db_getVideo_run, Hget.
    apply throwIf_true_run. now rewrite Hown.
Qed.

(** C7.  For the owner of the record and a form with a file in the field
    [thumbnail], the thumbnail handler fails with the BadRequest of its
    size check exactly when the size of the file exceeds 10 MiB
    (10 * 2^20 bytes); a file of exactly 10 MiB passes the check. *)
Theorem thumbnail_size_check cfg req (w : World) videoId video file :
  authorised cfg req w videoId video ->
  carries_file req "thumbnail" file ->
  let too_big := BadRequestError "Thumbnail file size must be < 10MB" in
  (fst (handlerUploadThumbnail cfg req w) = Throw too_big <->
   file_size file > 10 * 2 ^ 20) /\
  (file_size file = 10 * 2 ^ 20 ->
   fst (handlerUploadThumbnail cfg req w) <> Throw too_big) /\
  http_status too_big = 400.
Proof.
  intros Hauth Hfile too_big.
  rewrite (handlerUploadThumbnail_authorised _ _ _ _ _ _ Hauth Hfile).
  assert (Hiff : fst ((throwIf (file_size file >? js_shl 10 20) too_big ;;
                       throwIf (String.eqb (file_type file) "")
                         (BadRequestError "Missing Content-Type for thumbnail") ;;
                       let filename := videoId ++ mediaTypeToExt (file_type file) in
                       Bun_write (getAssetDiskPath cfg filename) file ;;
                       let video' := set_thumbnailURL (getAssetURL cfg filename) video in
                       db_updateVideo video' ;;
                       ret (respondWithJSON 200 video'))
                        (mkWorld (fs w) (s3 w) (db w) (faults w)
                           (trace w ++
                            [ConsoleLog ["uploading thumbnail for video"; videoId;
                                         "by user"; userID video]])))
                 = Throw too_big <-> file_size file > 10 * 2 ^ 20).
  { rewrite <- thumbnail_limit.
    destruct (Z.gtb_spec (file_size file) (js_shl 10 20)) as [Hbig|Hsmall].
    - rewrite throwIf_true_run by reflexivity. cbn. split; [lia | reflexivity].
    - rewrite throwIf_false_run by reflexivity.
      split; [| lia]. intros Hthrow. exfalso. revert Hthrow.
      unfold throwIf, Bun_write, db_updateVideo, bind, emit, throw, ret. cbn.
      destruct (String.eqb (file_type file) ""); cbn; [discriminate |].
      destruct (disk_fault (faults w)) eqn:Hdisk; cbn; rewrite ?Hdisk; cbn;
        [discriminate |].
      destruct (persist_fault (faults w)) eqn:Hper; cbn; rewrite ?Hper; cbn;
        discriminate. }
  split; [exact Hiff | split; [| reflexivity]].
  intros Hsize Hthrow. apply Hiff in Hthrow. lia.
Qed.

(** C9.  Wherever the first variant of the video handler succeeds, the
    second succeeds too, with the same status, on the same record of the
    database and with the same file handling; the two differ in the key
    under which the object is sent ([label/videoId.mp4] against
    [videoId.mp4]) and in the video URL built from it, which is the only
    difference between the records they return and store; and the second
    variant has not spawned the probe. *)
Theorem video_variants_agree cfg req (w : World) resp w1 :
  mediaTypeToExt "video/mp4" = ".mp4" ->
  handlerUploadVideo cfg req w = (Ok resp, w1) ->
  exists videoId video label resp2 w2,
    handlerUploadVideo2 cfg req w = (Ok resp2, w2) /\
    params_videoId req = Some videoId /\
    getVideo (db w) videoId = Some video /\
    is_label label /\
    let path := getAssetDiskPath cfg (videoId ++ ".mp4") in
    let key1 := label ++ "/" ++ videoId ++ ".mp4" in
    let key2 := videoId ++ ".mp4" in
    status resp2 = status resp /\
    payload resp = set_videoURL (getS3AssetURL cfg key1) video /\
    payload resp2 = set_videoURL (getS3AssetURL cfg key2) video /\
    db w1 = updateVideo (db w) (payload resp) /\
    db w2 = updateVideo (db w) (payload resp2) /\
    updates_of (trace w1) = (updates_of (trace w) ++ [payload resp])%list /\
    updates_of (trace w2) = (updates_of (trace w) ++ [payload resp2])%list /\
    uploads_of (trace w1) =
      (uploads_of (trace w) ++ [mkS3Object key1 (s3Bucket cfg) path "video/mp4"])%list /\
    uploads_of (trace w2) =
      (uploads_of (trace w) ++ [mkS3Object key2 (s3Bucket cfg) path "video/mp4"])%list /\
    fs w2 = fs w1 /\
    spawns_of (trace w2) = spawns_of (trace w).
Proof.
  intros Hext Hrun.
  apply handlerUploadVideo_Ok in Hrun
    as (videoId & video & file & label & Hpass & Hdisk & Hper & Hrun).
  cbn zeta in Hrun. destruct Hrun as (Hprobe & -> & ->).
  pose proof (handlerUploadVideo2_outcome _ _ _ _ _ _ Hpass Hdisk) as Hrun2.
  cbn zeta in Hrun2. rewrite Hper in Hrun2.
  pose proof (handlerUploadVideo2_no_spawn cfg req w) as Hspawn.
  rewrite Hrun2 in Hspawn.
  apply getVideoAspectRatio_label in Hprobe.
  unfold video_temp_path, video_filename in *. rewrite Hext in *.
  destruct Hpass as (((Hid & _) & Hget) & _).
  exists videoId, video, label. eexists. eexists.
  split; [exact Hrun2 |].
  split; [exact Hid |]. split; [exact Hget |]. split; [exact Hprobe |].
  cbn zeta. cbn [trace db fs payload status respondWithJSON] in *.
  unfold uploads_of, updates_of. rewrite !omap_app. cbn.
  auto 20.
Qed.

(** C10.  On a successful run each handler passes to [updateVideo] the
    record [getVideo] returned with one field assigned: the thumbnail
    handler the thumbnail URL, the video handler the video URL.  Every
    other field of the record passed equals the field of the record
    fetched. *)
Theorem handlers_assign_one_field cfg req (w : World) resp w' :
  (handlerUploadThumbnail cfg req w = (Ok resp, w') ->
   exists videoId video updated url,
     params_videoId req = Some videoId /\
     getVideo (db w) videoId = Some video /\
     updates_of (trace w') = (updates_of (trace w) ++ [updated])%list /\
     updated = set_thumbnailURL url video /\
     video_id updated = video_id video /\
     userID updated = userID video /\
     videoURL updated = videoURL video /\
     columns updated = columns video) /\
  (handlerUploadVideo cfg req w = (Ok resp, w') ->
   exists videoId video updated url,
     params_videoId req = Some videoId /\
     getVideo (db w) videoId = Some video /\
     updates_of (trace w') = (updates_of (trace w) ++ [updated])%list /\
     updated = set_videoURL url video /\
     video_id updated = video_id video /\
     userID updated = userID video /\
     thumbnailURL updated = thumbnailURL video /\
     columns updated = columns video).
Proof.
  split; intros Hrun.
  - apply handlerUploadThumbnail_Ok in Hrun
      as (videoId & video & file & Hpass & Hrun).
    cbn zeta in Hrun. destruct Hrun as (-> & ->).
    destruct Hpass as (((Hid & _) & Hget) & _).
    exists videoId, video. eexists. eexists.
    split; [exact Hid |]. split; [exact Hget |].
    cbn [trace]. unfold updates_of. rewrite omap_app. cbn.
    split; [reflexivity |]. split; [reflexivity |]. cbn. auto.
  - apply handlerUploadVideo_Ok in Hrun
      as (videoId & video & file & label & Hpass & Hdisk & Hper & Hrun).
    cbn zeta in Hrun. destruct Hrun as (_ & -> & ->).
    destruct Hpass as (((Hid & _) & Hget) & _).
    exists videoId, video. eexists. eexists.
    split; [exact Hid |]. split; [exact Hget |].
    cbn [trace]. unfold updates_of. rewrite omap_app. cbn.
    split; [reflexivity |]. split; [reflexivity |]. cbn. auto.
Qed.
End HandlerClaims.

(* ===================================================================== *)
(** ** The statements on the concrete platform                            *)
(* ===================================================================== *)

Lemma demo_alice_passes pending :
  passes_video_checks (P := Demo.platform) Demo.cfg Demo.alice_uploads_clip
    (Demo.world pending) "v1" Demo.alices_video Demo.clip.
Proof. demo_checks. Qed.

Lemma demo_alice_authorised req_field type content size :
  authorised (P := Demo.platform) Demo.cfg
    (Demo.upload "s3cr3t.alice" req_field type content size)
    (Demo.world no_faults) "v1" Demo.alices_video.
Proof. demo_checks. Qed.

Lemma demo_bob_identified req_field type content size :
  identified (P := Demo.platform) Demo.cfg
    (Demo.upload "s3cr3t.bob" req_field type content size) "v1" "bob".
Proof. demo_checks. Qed.

(** C3 as stated fails: Bob's picture for Alice's video is refused with 403,
    Alice's picture for a video that does not exist with 404, and a picture
    sent with a forged token with 401; none with 400, although the
    declared media type is not [video/mp4]. *)
Lemma non_mp4_upload_not_always_400 :
  let run req := fst (handlerUploadVideo (P := Demo.platform) Demo.cfg req
                        (Demo.world no_faults)) in
  carries_file Demo.bob_uploads_picture "video" (mkFile 3 "image/png" "PNG") /\
  carries_file Demo.forged_upload "video" (mkFile 3 "image/png" "PNG") /\
  carries_file Lab.picture_for_unknown_video "video" (mkFile 3 "image/png" "PNG") /\
  "image/png" <> "video/mp4" /\
  run Demo.bob_uploads_picture
  = Throw (UserForbiddenError "You do not have access to edit this video") /\
  http_status (UserForbiddenError "You do not have access to edit this video") = 403 /\
  run Demo.forged_upload = Throw (UserNotAuthenticatedError "Invalid token") /\
  http_status (UserNotAuthenticatedError "Invalid token") = 401 /\
  run Lab.picture_for_unknown_video = Throw (NotFoundError "Couldn't find video") /\
  http_status (NotFoundError "Couldn't find video") = 404.
Proof.
  cbn zeta. repeat split; try discriminate; try (vm_compute; reflexivity).
  all: eexists; split; reflexivity.
Qed.

(** C3, amended, on Alice's own pictures, of three bytes and of 1 GiB and
    one byte: 400; and on the picture sent with a forged token. *)
Lemma non_mp4_rejected_after_checks_witness :
  (exists msg,
      handlerUploadVideo (P := Demo.platform) Demo.cfg Demo.alice_uploads_picture
        (Demo.world no_faults)
      = (Throw (BadRequestError msg), Demo.world no_faults) /\
      http_status (BadRequestError msg) = 400) /\
  (exists msg,
      handlerUploadVideo (P := Demo.platform) Demo.cfg Lab.with_huge_picture
        (Demo.world no_faults)
      = (Throw (BadRequestError msg), Demo.world no_faults) /\
      http_status (BadRequestError msg) = 400) /\
  handlerUploadVideo (P := Demo.platform) Demo.cfg Demo.forged_upload
    (Demo.world no_faults)
  = (Throw (UserNotAuthenticatedError "Invalid token"), Demo.world no_faults).
Proof.
  split; [| split].
  - destruct (non_mp4_rejected_after_checks (P := Demo.platform) Demo.cfg
                Demo.alice_uploads_picture (Demo.world no_faults)
                (mkFile 3 "image/png" "PNG"))
      as (_ & Howner & _);
      [eexists; split; reflexivity | discriminate |].
    apply (Howner "v1" Demo.alices_video). apply demo_alice_authorised.
  - destruct (non_mp4_rejected_after_checks (P := Demo.platform) Demo.cfg
                Lab.with_huge_picture (Demo.world no_faults) Lab.huge_picture)
      as (_ & Howner & _);
      [eexists; split; reflexivity | discriminate |].
    apply (Howner "v1" Demo.alices_video). apply demo_alice_authorised.
  - destruct (non_mp4_rejected_after_checks (P := Demo.platform) Demo.cfg
                Demo.forged_upload (Demo.world no_faults)
                (mkFile 3 "image/png" "PNG"))
      as (_ & _ & _ & Htoken & _);
      [eexists; split; reflexivity | discriminate |].
    apply (Htoken "v1"); [reflexivity | discriminate |].
    right. exists "forged". split; reflexivity.
Defined.

(** C4.  The temporary file is not deleted on every exit path: what Alice
    uploads is declared [video/mp4] but is no video, the handler writes it
    to the temporary path (line 50), the probe exits with status 1, the
    classifier throws its error text (line 96) and the handler ends there,
    before the [tempFile.delete()] of line 68: the file is still on the
    disk, and no deletion was attempted. *)
Theorem temp_file_left_after_failed_probe :
  fst (handlerUploadVideo (P := Demo.platform) Demo.cfg Demo.alice_uploads_junk
         (Demo.world no_faults))
  = Throw (JsError "Invalid data found when processing input") /\
  trace (snd (handlerUploadVideo (P := Demo.platform) Demo.cfg
                Demo.alice_uploads_junk (Demo.world no_faults)))
  = [BunWrite Demo.temp_path; BunSpawn (ffprobe_argv Demo.temp_path)] /\
  deletes_of (trace (snd (handlerUploadVideo (P := Demo.platform) Demo.cfg
                            Demo.alice_uploads_junk (Demo.world no_faults))))
  = [] /\
  fs (Demo.world no_faults) !! Demo.temp_path = None /\
  fs (snd (handlerUploadVideo (P := Demo.platform) Demo.cfg
             Demo.alice_uploads_junk (Demo.world no_faults))) !! Demo.temp_path
  = Some "not a video".
Proof.
  repeat split; vm_compute; reflexivity.
Qed.

(** Alice's clip goes through. *)
Lemma demo_alice_run :
  handlerUploadVideo (P := Demo.platform) Demo.cfg Demo.alice_uploads_clip
    (Demo.world no_faults)
  = (Ok (respondWithJSON 200 (set_videoURL Demo.landscape_url Demo.alices_video)),
     snd (handlerUploadVideo (P := Demo.platform) Demo.cfg Demo.alice_uploads_clip
            (Demo.world no_faults))).
Proof. vm_compute. reflexivity. Qed.

(** C5 on Alice's clip: the key is [landscape/v1.mp4]. *)
Lemma video_storage_key_witness :
  let w' := snd (handlerUploadVideo (P := Demo.platform) Demo.cfg
                   Demo.alice_uploads_clip (Demo.world no_faults)) in
  uploads_of (trace w')
  = [mkS3Object "landscape/v1.mp4" "tubely-bucket" Demo.temp_path "video/mp4"] /\
  db w' = [set_videoURL Demo.landscape_url Demo.alices_video].
Proof.
  cbn zeta.
  destruct (video_storage_key (P := Demo.platform) Demo.cfg Demo.alice_uploads_clip
              (Demo.world no_faults) _ _ eq_refl demo_alice_run)
    as (videoId & video & file & label & Hpass & Hprobe & _ & Hkey & _ & _ & _ & Hdb).
  destruct Hpass as (((Hid & _) & _) & (fd & Hbody & Hfile) & _).
  injection Hid as <-. injection Hbody as <-. injection Hfile as <-.
  injection Hprobe as <-.
  split; [exact Hkey | exact Hdb].
Defined.

(** C6 on Bob's requests for Alice's video. *)
Lemma forbidden_without_write_witness :
  handlerUploadVideo (P := Demo.platform) Demo.cfg Demo.bob_uploads_picture
    (Demo.world no_faults)
  = (Throw (UserForbiddenError "You do not have access to edit this video"),
     Demo.world no_faults) /\
  fst (handlerUploadThumbnail (P := Demo.platform) Demo.cfg Demo.bob_uploads_thumbnail
         (Demo.world no_faults))
  = Throw (UserForbiddenError "You do not have access to edit this video").
Proof.
  split.
  - apply (forbidden_without_write (P := Demo.platform) Demo.cfg
             Demo.bob_uploads_picture (Demo.world no_faults) "v1" "bob"
             Demo.alices_video);
      [apply demo_bob_identified | reflexivity | discriminate].
  - destruct (forbidden_without_write (P := Demo.platform) Demo.cfg
                Demo.bob_uploads_thumbnail (Demo.world no_faults) "v1" "bob"
                Demo.alices_video)
      as (_ & (w' & Hrun & _) & _);
      [apply demo_bob_identified | reflexivity | discriminate |].
    now rewrite Hrun.
Defined.

(** C7 on a thumbnail of exactly 10 MiB and on one byte more. *)
Lemma thumbnail_size_check_witness :
  fst (handlerUploadThumbnail (P := Demo.platform) Demo.cfg
         (Demo.alice_uploads_thumbnail 10485761) (Demo.world no_faults))
  = Throw (BadRequestError "Thumbnail file size must be < 10MB") /\
  fst (handlerUploadThumbnail (P := Demo.platform) Demo.cfg
         (Demo.alice_uploads_thumbnail 10485760) (Demo.world no_faults))
  <> Throw (BadRequestError "Thumbnail file size must be < 10MB").
Proof.
  split.
  - apply (thumbnail_size_check (P := Demo.platform) Demo.cfg
             (Demo.alice_uploads_thumbnail 10485761) (Demo.world no_faults) "v1"
             Demo.alices_video (mkFile 10485761 "image/png" "PNG")).
    + apply demo_alice_authorised.
    + eexists; split; reflexivity.
    + cbn. lia.
  - apply (thumbnail_size_check (P := Demo.platform) Demo.cfg
             (Demo.alice_uploads_thumbnail 10485760) (Demo.world no_faults) "v1"
             Demo.alices_video (mkFile 10485760 "image/png" "PNG")).
    + apply demo_alice_authorised.
    + eexists; split; reflexivity.
    + reflexivity.
Defined.

(** C8, amended, on the landscape clip: no cause of failure, a label. *)
Lemma classifier_failure_cases_witness :
  exists label,
    fst (getVideoAspectRatio (P := Demo.platform) Demo.temp_path
           (Demo.with_file "clip 1920x1080")) = Ok label /\
    is_label label.
Proof.
  apply (classifier_failure_cases (P := Demo.platform) Demo.temp_path
           (Demo.with_file "clip 1920x1080")).
  unfold probe_rejected, no_stream_entries, first_stream, dimension_missing_or_zero.
  intros [H | [H | (d & Hd & [[H|H] | (s & Hs & [H | [H | [H|H]]])])]];
    vm_compute in *; simplify_eq.
Defined.

(** C9 on Alice's clip: the second variant stores under [v1.mp4]. *)
Lemma video_variants_agree_witness :
  exists resp2 w2,
    handlerUploadVideo2 (P := Demo.platform) Demo.cfg Demo.alice_uploads_clip
      (Demo.world no_faults) = (Ok resp2, w2) /\
    payload resp2 = set_videoURL Demo.plain_url Demo.alices_video /\
    uploads_of (trace w2)
    = [mkS3Object "v1.mp4" "tubely-bucket" Demo.temp_path "video/mp4"] /\
    spawns_of (trace w2) = [].
Proof.
  destruct (video_variants_agree (P := Demo.platform) Demo.cfg
              Demo.alice_uploads_clip (Demo.world no_faults) _ _ eq_refl
              demo_alice_run)
    as (videoId & video & label & resp2 & w2 & Hrun2 & Hid & Hget & _ & Hrest).
  injection Hid as <-. injection Hget as <-.
  cbn zeta in Hrest.
  destruct Hrest as (_ & _ & Hpayload & _ & _ & _ & _ & _ & Hkey & _ & Hspawn).
  exists resp2, w2. auto.
Defined.

(** C10 on Alice's clip and on her thumbnail. *)
Lemma handlers_assign_one_field_witness :
  (exists updated url,
      updates_of (trace (snd (handlerUploadVideo (P := Demo.platform) Demo.cfg
                                Demo.alice_uploads_clip (Demo.world no_faults))))
      = [updated] /\
      updated = set_videoURL url Demo.alices_video) /\
  (exists updated url,
      updates_of (trace (snd (handlerUploadThumbnail (P := Demo.platform) Demo.cfg
                                (Demo.alice_uploads_thumbnail 3) (Demo.world no_faults))))
      = [updated] /\
      updated = set_thumbnailURL url Demo.alices_video).
Proof.
  split.
  - destruct (proj2 (handlers_assign_one_field (P := Demo.platform) Demo.cfg
                       Demo.alice_uploads_clip (Demo.world no_faults) _ _)
                demo_alice_run)
      as (videoId & video & updated & url & Hid & Hget & Hupd & Hset & _).
    injection Hid as <-. injection Hget as <-.
    exists updated, url. auto.
  - destruct (proj1 (handlers_assign_one_field (P := Demo.platform) Demo.cfg
                       (Demo.alice_uploads_thumbnail 3) (Demo.world no_faults)
                       (respondWithJSON 200
                          (set_thumbnailURL "http://localhost:8091/assets/v1.png"
                             Demo.alices_video))
                       (snd (handlerUploadThumbnail (P := Demo.platform) Demo.cfg
                               (Demo.alice_uploads_thumbnail 3)
                               (Demo.world no_faults)))))
      as (videoId & video & updated & url & Hid & Hget & Hupd & Hset & _).
    { vm_compute. reflexivity. }
    injection Hid as <-. injection Hget as <-.
    exists updated, url. auto.
Defined.

(* ===================================================================== *)
(** ** More about the classifier                                          *)
(* ===================================================================== *)

Lemma label_rule_landscape (w h : Z) :
  label_rule w h = "landscape" <-> 9 * w <= 16 * h < 9 * w + 9.
Proof.
  unfold label_rule.
  destruct (Z.eqb_spec w (16 * h / 9)) as [Hw|Hw].
  - split; [intros _ | reflexivity]. Z.div_mod_to_equations. lia.
  - split.
    + destruct (h =? 16 * w / 9); discriminate.
    + intros Hb. exfalso. apply Hw. Z.div_mod_to_equations. lia.
Qed.

Lemma label_rule_portrait (w h : Z) :
  label_rule w h = "portrait" <->
  ~ (9 * w <= 16 * h < 9 * w + 9) /\ 9 * h <= 16 * w < 9 * h + 9.
Proof.
  unfold label_rule.
  destruct (Z.eqb_spec w (16 * h / 9)) as [Hw|Hw].
  - split; [discriminate |]. intros [Hn _]. exfalso. apply Hn.
    Z.div_mod_to_equations. lia.
  - destruct (Z.eqb_spec h (16 * w / 9)) as [Hh|Hh].
    + split; [intros _ | reflexivity]. split; Z.div_mod_to_equations; lia.
    + split; [discriminate |]. intros [_ Hb]. exfalso. apply Hh.
      Z.div_mod_to_equations. lia.
Qed.

Lemma label_rule_other (w h : Z) :
  label_rule w h = "other" <->
  ~ (9 * w <= 16 * h < 9 * w + 9) /\ ~ (9 * h <= 16 * w < 9 * h + 9).
Proof.
  pose proof (label_rule_landscape w h) as Hl.
  pose proof (label_rule_portrait w h) as Hp.
  destruct (label_rule_is_label w h) as [H | [H | H]]; rewrite H in *; split;
    try discriminate; try reflexivity.
  - intros [Hn _]. destruct Hn. now apply Hl.
  - intros [_ Hn]. destruct Hn. now apply Hp.
  - intros _. split.
    + intros Hb. apply Hl in Hb. discriminate.
    + intros Hb.
      destruct (Z_le_dec (9 * w) (16 * h)) as [H1|H1];
        [destruct (Z_lt_dec (16 * h) (9 * w + 9)) as [H2|H2] |].
      * assert (Hc : "other" = "landscape") by (apply Hl; lia). discriminate.
      * assert (Hc : "other" = "portrait") by (apply Hp; split; [lia | exact Hb]).
        discriminate.
      * assert (Hc : "other" = "portrait") by (apply Hp; split; [lia | exact Hb]).
        discriminate.
Qed.

(** X1.  For a width and a height above -(9 * 2^46 + 4) and below
    9 * 2^46 + 5, the label that lines 111-123 compute on doubles is
    [landscape] exactly when [9w <= 16h < 9w + 9], that is when [w] is the
    16:9 width of height [h], rounded down; [portrait] exactly when that
    fails and [9h <= 16w < 9h + 9]; [other] exactly when both fail. *)
Theorem labels_are_sixteen_ninths_bounds (w h : Z) :
  -633318697598980 < w < 633318697598981 ->
  -633318697598980 < h < 633318697598981 ->
  (aspectRatioOf w h = "landscape" <-> 9 * w <= 16 * h < 9 * w + 9) /\
  (aspectRatioOf w h = "portrait" <->
   ~ (9 * w <= 16 * h < 9 * w + 9) /\ 9 * h <= 16 * w < 9 * h + 9) /\
  (aspectRatioOf w h = "other" <->
   ~ (9 * w <= 16 * h < 9 * w + 9) /\ ~ (9 * h <= 16 * w < 9 * h + 9)).
Proof.
  intros Hw Hh. rewrite aspectRatioOf_rule by assumption.
  split; [apply label_rule_landscape |].
  split; [apply label_rule_portrait | apply label_rule_other].
Qed.

(** X2.  For dimensions of at least 2 and below 9 * 2^46 + 5, turning the
    picture by a quarter exchanges [landscape] and [portrait] and keeps
    [other], in the labels that lines 111-123 compute on doubles. *)
Theorem swapped_dimensions_swap_labels (w h : Z) :
  2 <= w < 633318697598981 -> 2 <= h < 633318697598981 ->
  (aspectRatioOf w h = "landscape" <-> aspectRatioOf h w = "portrait") /\
  (aspectRatioOf w h = "portrait" <-> aspectRatioOf h w = "landscape") /\
  (aspectRatioOf w h = "other" <-> aspectRatioOf h w = "other").
Proof.
  intros Hw Hh. rewrite !aspectRatioOf_rule by lia.
  rewrite !label_rule_landscape, !label_rule_portrait, !label_rule_other.
  lia.
Qed.

(** X3.  For every width and height from 0 to 8192, the label computed with
    the double arithmetic of the runtime is the label of the rule on
    integers: rounding in [16 * (n / 9)] never changes a label. *)
Theorem double_rounding_keeps_the_label (w h : Z) :
  0 <= w <= 8192 -> 0 <= h <= 8192 ->
  aspectRatioOf_binary64 w h = Some (label_rule w h).
Proof.
  intros Hw Hh. apply aspectRatioOf_binary64_rule; lia.
Qed.

(** X21.  On doubles [Math.floor(16 * (n / 9))] is the integer
    [floor(16n/9)] for every integer [n] from -(9 * 2^46 + 3) to
    9 * 2^46 + 4, read as an integer and as the double the comparisons of
    lines 113-121 use; the two integers next to this range are the first
    where rounding moves the floor: up by one at 9 * 2^46 + 5, and up by
    one at -(9 * 2^46 + 4). *)
Theorem floor_on_doubles_is_exact_in_range :
  (forall n : Z,
      -633318697598980 < n < 633318697598981 ->
      floor_16_ninths_binary64 n = Some (16 * n / 9) /\
      Math_floor (sixteen_ninths (binary64_of_Z n)) = binary64_of_Z (16 * n / 9)) /\
  floor_16_ninths_binary64 633318697598981 = Some (16 * 633318697598981 / 9 + 1) /\
  floor_16_ninths_binary64 (-633318697598980)
  = Some (16 * (-633318697598980) / 9 + 1).
Proof.
  split; [| split; vm_compute; reflexivity].
  intros n Hn. split.
  - now apply floor_16_ninths_binary64_range.
  - now apply Math_floor_sixteen_ninths.
Qed.

Section ClassifierExtras.
Context {P : Platform}.

(** X4.  Whatever the probe answers, and also when the classifier throws,
    the classifier leaves the disk, the bucket and the database as they
    were and makes exactly one call: it spawns [ffprobe] with the fixed
    arguments of lines 75-86 and the path it was given as the last one. *)
Theorem classifier_only_spawns_the_probe filePath (w : World) :
  let w' := snd (getVideoAspectRatio filePath w) in
  fs w' = fs w /\ s3 w' = s3 w /\ db w' = db w /\ faults w' = faults w /\
  trace w' =
    (trace w ++
     [BunSpawn ["ffprobe"; "-v"; "error"; "-select_streams"; "v:0";
                "-show_entries"; "stream=width,height"; "-of"; "json";
                filePath]])%list.
Proof.
  cbn zeta. rewrite getVideoAspectRatio_world. cbn. auto.
Qed.

(** X5.  Only the first stream counts: two probes that both exit with
    status 0 and print documents with the same first stream (or both with
    none) give the same result, whatever the other streams are. *)
Theorem only_the_first_stream_counts
    path1 (w1 : World) path2 (w2 : World) d1 d2 :
  exitCode (ffprobe (fs w1 !! path1)) = 0 ->
  exitCode (ffprobe (fs w2 !! path2)) = 0 ->
  JSON_parse (stdoutText (ffprobe (fs w1 !! path1))) = Some d1 ->
  JSON_parse (stdoutText (ffprobe (fs w2 !! path2))) = Some d2 ->
  first_stream d1 = first_stream d2 ->
  fst (getVideoAspectRatio path1 w1) = fst (getVideoAspectRatio path2 w2).
Proof.
  intros Hexit1 Hexit2 Hparse1 Hparse2 Hfirst.
  rewrite !getVideoAspectRatio_result. cbn zeta.
  rewrite Hexit1, Hexit2, Hparse1, Hparse2. cbn.
  unfold first_stream in Hfirst.
  destruct (streams d1) as [[|s1 rest1]|], (streams d2) as [[|s2 rest2]|];
    try discriminate; try reflexivity.
  injection Hfirst as <-. reflexivity.
Qed.
End ClassifierExtras.

(* ===================================================================== *)
(** ** More runs of the handlers                                          *)
(* ===================================================================== *)

Section MoreRuns.
Context {P : Platform}.

(** Past its checks, the thumbnail handler by the failures in store. *)
Lemma handlerUploadThumbnail_outcome cfg req w videoId video file :
  passes_thumbnail_checks cfg req w videoId video file ->
  let filename := videoId ++ mediaTypeToExt (file_type file) in
  let path := getAssetDiskPath cfg filename in
  let video' := set_thumbnailURL (getAssetURL cfg filename) video in
  let logged := ConsoleLog ["uploading thumbnail for video"; videoId;
                            "by user"; userID video] in
  handlerUploadThumbnail cfg req w =
  match disk_fault (faults w) with
  | Some msg =>
      (Throw (SystemError msg),
       mkWorld (fs w) (s3 w) (db w) (faults w)
               (trace w ++ [logged; BunWrite path]))
  | None =>
      (match persist_fault (faults w) with
       | Some msg => Throw (SystemError msg)
       | None => Ok (respondWithJSON 200 video')
       end,
       mkWorld (<[path := file_data file]> (fs w)) (s3 w)
               (match persist_fault (faults w) with
                | Some _ => db w
                | None => updateVideo (db w) video'
                end)
               (faults w)
               (trace w ++ [logged; BunWrite path; UpdateVideo video']))
  end.
Proof.
  intros (Hauth & Hfile & Hsize & Htype). cbn zeta.
  rewrite (handlerUploadThumbnail_authorised _ _ _ _ _ _ Hauth Hfile).
  rewrite throwIf_false_run by (rewrite thumbnail_limit; lia).
  rewrite throwIf_false_run by now apply String.eqb_neq.
  unfold bind, Bun_write, db_updateVideo, emit, ret. cbn.
  destruct (disk_fault (faults w)) eqn:Hdisk; cbn; rewrite ?Hdisk; cbn.
  { rewrite <- !app_assoc. reflexivity. }
  destruct (persist_fault (faults w)) eqn:Hper; cbn; rewrite ?Hper; cbn;
    rewrite <- !app_assoc; reflexivity.
Qed.

(** Before its checks are passed the thumbnail handler has at most printed
    its log line. *)
Lemma handlerUploadThumbnail_cases cfg req w :
  (exists e, handlerUploadThumbnail cfg req w = (Throw e, w)) \/
  (exists e args,
      handlerUploadThumbnail cfg req w =
      (Throw e, mkWorld (fs w) (s3 w) (db w) (faults w)
                        (trace w ++ [ConsoleLog args]))) \/
  (exists videoId video file, passes_thumbnail_checks cfg req w videoId video file).
Proof.
  unfold handlerUploadThumbnail, bind, require_videoId, lift, console_log,
    db_getVideo, throwIf, req_formData, require_file, emit, throw, ret.
  destruct (params_videoId req) as [videoId|] eqn:Hid; [| left; eexists; reflexivity].
  destruct (String.eqb_spec videoId "") as [|Hne]; [left; eexists; reflexivity |].
  destruct (getBearerToken (headers req)) as [token|e] eqn:Htok;
    [| left; eexists; reflexivity].
  destruct (validateJWT token (jwtSecret cfg)) as [userId|e] eqn:Hjwt;
    [| left; eexists; reflexivity].
  cbn.
  destruct (getVideo (db w) videoId) as [video|] eqn:Hget;
    [| right; left; eexists; eexists; reflexivity].
  destruct (String.eqb_spec (userID video) userId) as [<-|Hown];
    [| right; left; eexists; eexists; reflexivity].
  cbn.
  destruct (body req) as [fd|] eqn:Hbody;
    [| right; left; eexists; eexists; reflexivity].
  destruct (formData_get fd "thumbnail") as [[s|file]|] eqn:Hfile;
    [right; left; eexists; eexists; reflexivity |
    | right; left; eexists; eexists; reflexivity].
  destruct (Z.gtb_spec (file_size file) (js_shl 10 20)) as [Hbig|Hsize];
    [right; left; eexists; eexists; reflexivity |].
  destruct (String.eqb_spec (file_type file) "") as [|Hty];
    [right; left; eexists; eexists; reflexivity |].
  right. right. exists videoId, video, file.
  rewrite thumbnail_limit in Hsize.
  unfold passes_thumbnail_checks, authorised, identified, carries_file.
  eauto 12.
Qed.

(** The same for the second variant of the video handler. *)
Lemma handlerUploadVideo2_cases cfg req w :
  (exists e, handlerUploadVideo2 cfg req w = (Throw e, w)) \/
  (exists videoId video file, passes_video_checks cfg req w videoId video file).
Proof.
  unfold handlerUploadVideo2, bind, require_videoId, lift, db_getVideo, throwIf,
    req_formData, require_file, throw, ret.
  destruct (params_videoId req) as [videoId|] eqn:Hid; [| left; eexists; reflexivity].
  destruct (String.eqb_spec videoId "") as [|Hne]; [left; eexists; reflexivity |].
  destruct (getBearerToken (headers req)) as [token|e] eqn:Htok;
    [| left; eexists; reflexivity].
  destruct (validateJWT token (jwtSecret cfg)) as [userId|e] eqn:Hjwt;
    [| left; eexists; reflexivity].
  destruct (getVideo (db w) videoId) as [video|] eqn:Hget;
    [| left; eexists; reflexivity].
  destruct (String.eqb_spec (userID video) userId) as [<-|Hown];
    [| left; eexists; reflexivity].
  destruct (body req) as [fd|] eqn:Hbody; [| left; eexists; reflexivity].
  destruct (formData_get fd "video") as [[s|file]|] eqn:Hfile;
    [left; eexists; reflexivity | | left; eexists; reflexivity].
  destruct (Z.gtb_spec (file_size file) (js_shl 1 30)) as [Hbig|Hsize];
    [left; eexists; reflexivity |].
  destruct (String.eqb_spec (file_type file) "") as [|Hty];
    [left; eexists; reflexivity |].
  destruct (String.eqb_spec (file_type file) "video/mp4") as [Hmp4|Hmp4];
    [| left; eexists; reflexivity].
  right. exists videoId, video, file.
  rewrite video_limit in Hsize.
  unfold passes_video_checks, authorised, identified, carries_file.
  eauto 12.
Qed.

Lemma handlerUploadVideo2_disk_fault cfg req w videoId video file msg :
  passes_video_checks cfg req w videoId video file ->
  disk_fault (faults w) = Some msg ->
  handlerUploadVideo2 cfg req w =
  (Throw (SystemError msg),
   mkWorld (fs w) (s3 w) (db w) (faults w)
           (trace w ++ [BunWrite (video_temp_path cfg videoId)])).
Proof.
  intros Hpass Hdisk.
  rewrite (handlerUploadVideo2_passes _ _ _ _ _ _ Hpass). cbn zeta.
  unfold bind, Bun_write, emit. cbn. now rewrite Hdisk.
Qed.

(** The classifier throws plain errors and syntax errors only. *)
Lemma getVideoAspectRatio_throws filePath w e :
  fst (getVideoAspectRatio filePath w) = Throw e ->
  (exists msg, e = JsError msg) \/ (exists msg, e = SyntaxError msg).
Proof.
  rewrite getVideoAspectRatio_result. cbn zeta.
  destruct (negb _); [intros [= <-]; eauto |].
  destruct (JSON_parse _) as [d|]; [| intros [= <-]; eauto].
  destruct (streams d) as [[|s rest]|]; try (intros [= <-]; eauto).
  destruct (width s), (height s); try (intros [= <-]; eauto).
  destruct (_ || _); [intros [= <-]; eauto | discriminate].
Qed.

(** For the owner and a file of at most 1 GiB, either the declared media
    type is refused, by both variants alike, or the request passes. *)
Lemma video_checks_or_type_refusal cfg req w videoId video file :
  authorised cfg req w videoId video ->
  carries_file req "video" file ->
  file_size file <= 2 ^ 30 ->
  (exists msg,
      handlerUploadVideo cfg req w = (Throw (BadRequestError msg), w) /\
      handlerUploadVideo2 cfg req w = (Throw (BadRequestError msg), w) /\
      (msg = "Missing Content-Type for Video" \/
       msg = "Invalid Content-Type for Video")) \/
  passes_video_checks cfg req w videoId video file.
Proof.
  intros Hauth Hfile Hsize.
  destruct (String.eqb_spec (file_type file) "video/mp4") as [Hmp4|Hmp4].
  { right. repeat split; auto; apply Hauth. }
  left. destruct Hauth as (Hident & Hget).
  assert (Hown : negb (String.eqb (userID video) (userID video)) = false)
    by now rewrite String.eqb_refl.
  assert (Hfits : (file_size file >? js_shl 1 30) = false)
    by (rewrite video_limit; lia).
  destruct (String.eqb_spec (file_type file) "") as [Hempty|Hempty].
  - exists "Missing Content-Type for Video".
    split; [| split; [| left; reflexivity]].
    + unfold handlerUploadVideo.
      rewrite (identified_run cfg req videoId (userID video) w _ Hident).
      rewrite db_getVideo_run, Hget, (throwIf_false_run _ _ _ _ Hown).
      rewrite (carries_file_run req "video" file _ w _ Hfile).
      rewrite (throwIf_false_run _ _ _ _ Hfits).
      apply throwIf_true_run. now apply String.eqb_eq.
    + unfold handlerUploadVideo2.
      rewrite (identified_run cfg req videoId (userID video) w _ Hident).
      rewrite db_getVideo_run, Hget, (throwIf_false_run _ _ _ _ Hown).
      rewrite (carries_file_run req "video" file _ w _ Hfile).
      rewrite (throwIf_false_run _ _ _ _ Hfits).
      apply throwIf_true_run. now apply String.eqb_eq.
  - apply String.eqb_neq in Hempty, Hmp4.
    assert (Hbad : negb (String.eqb (file_type file) "video/mp4") = true)
      by now rewrite Hmp4.
    exists "Invalid Content-Type for Video".
    split; [| split; [| right; reflexivity]].
    + unfold handlerUploadVideo.
      rewrite (identified_run cfg req videoId (userID video) w _ Hident).
      rewrite db_getVideo_run, Hget, (throwIf_false_run _ _ _ _ Hown).
      rewrite (carries_file_run req "video" file _ w _ Hfile).
      rewrite (throwIf_false_run _ _ _ _ Hfits).
      rewrite (throwIf_false_run _ _ _ _ Hempty).
      now apply throwIf_true_run.
    + unfold handlerUploadVideo2.
      rewrite (identified_run cfg req videoId (userID video) w _ Hident).
      rewrite db_getVideo_run, Hget, (throwIf_false_run _ _ _ _ Hown).
      rewrite (carries_file_run req "video" file _ w _ Hfile).
      rewrite (throwIf_false_run _ _ _ _ Hfits).
      rewrite (throwIf_false_run _ _ _ _ Hempty).
      now apply throwIf_true_run.
Qed.

(** Past the checks neither variant fails with a BadRequest. *)
Lemma video_handlers_past_checks cfg req w videoId video file :
  passes_video_checks cfg req w videoId video file ->
  (forall msg, fst (handlerUploadVideo cfg req w) <> Throw (BadRequestError msg)) /\
  (forall msg, fst (handlerUploadVideo2 cfg req w) <> Throw (BadRequestError msg)).
Proof.
  intros Hpass.
  destruct (disk_fault (faults w)) as [m|] eqn:Hdisk.
  { rewrite (handlerUploadVideo_disk_fault _ _ _ _ _ _ _ Hpass Hdisk).
    rewrite (handlerUploadVideo2_disk_fault _ _ _ _ _ _ _ Hpass Hdisk).
    split; intros msg; discriminate. }
  rewrite (handlerUploadVideo2_outcome _ _ _ _ _ _ Hpass Hdisk).
  pose proof (handlerUploadVideo_outcome _ _ _ _ _ _ Hpass Hdisk) as Hout.
  cbn zeta in Hout.
  split; intros msg.
  - destruct (fst (getVideoAspectRatio _ _)) as [label|e] eqn:Hprobe;
      rewrite Hout; cbn.
    + destruct (persist_fault (faults w)); discriminate.
    + intros [= ->].
      apply getVideoAspectRatio_throws in Hprobe as [[m [=]] | [m [=]]].
  - cbn. destruct (persist_fault (faults w)); discriminate.
Qed.

(** A call appended to the trace makes a different world. *)
Lemma trace_grows (t : list Event) (more : list Event) :
  more <> [] -> (t ++ more)%list <> t.
Proof.
  intros Hmore Heq. apply Hmore.
  apply (app_inv_head t). now rewrite app_nil_r.
Qed.
End MoreRuns.

(* ===================================================================== *)
(** ** More about the handlers                                            *)
(* ===================================================================== *)

Section HandlerExtras.
Context {P : Platform}.

(** X6.  A thumbnail upload by the owner of the record, with a file of at
    most 10 MiB and any non-empty declared media type, succeeds when disk
    and database work: the answer is 200 with the record whose thumbnail URL
    is [getAssetURL] of [videoId] followed by the extension of the media
    type, that record is stored, the bytes are on the disk at
    [getAssetDiskPath] of the same name, and no other path, nothing in the
    bucket, changes. *)
Theorem thumbnail_upload_succeeds cfg req (w : World) videoId video file :
  passes_thumbnail_checks cfg req w videoId video file ->
  disk_fault (faults w) = None ->
  persist_fault (faults w) = None ->
  let filename := videoId ++ mediaTypeToExt (file_type file) in
  let path := getAssetDiskPath cfg filename in
  let video' := set_thumbnailURL (getAssetURL cfg filename) video in
  exists w',
    handlerUploadThumbnail cfg req w = (Ok (respondWithJSON 200 video'), w') /\
    fs w' !! path = Some (file_data file) /\
    (forall p, p <> path -> fs w' !! p = fs w !! p) /\
    s3 w' = s3 w /\
    db w' = updateVideo (db w) video' /\
    updates_of (trace w') = (updates_of (trace w) ++ [video'])%list.
Proof.
  intros Hpass Hdisk Hper filename path video'.
  pose proof (handlerUploadThumbnail_outcome _ _ _ _ _ _ Hpass) as Hrun.
  cbn zeta in Hrun. rewrite Hdisk, Hper in Hrun.
  eexists. split; [exact Hrun |]. cbn [fs s3 db trace].
  split; [apply lookup_insert_eq |].
  split; [intros p Hp; now apply lookup_insert_ne |].
  split; [reflexivity |]. split; [reflexivity |].
  unfold updates_of. rewrite omap_app. reflexivity.
Qed.

(** X7.  When the database refuses the update, the thumbnail handler fails
    with that error after the file was written: the bytes stay on the disk
    and the record in the database is as before. *)
Theorem thumbnail_kept_when_update_fails
    cfg req (w : World) videoId video file msg :
  passes_thumbnail_checks cfg req w videoId video file ->
  disk_fault (faults w) = None ->
  persist_fault (faults w) = Some msg ->
  let path := getAssetDiskPath cfg (videoId ++ mediaTypeToExt (file_type file)) in
  exists w',
    handlerUploadThumbnail cfg req w = (Throw (SystemError msg), w') /\
    fs w' !! path = Some (file_data file) /\
    db w' = db w.
Proof.
  intros Hpass Hdisk Hper path.
  pose proof (handlerUploadThumbnail_outcome _ _ _ _ _ _ Hpass) as Hrun.
  cbn zeta in Hrun. rewrite Hdisk, Hper in Hrun.
  eexists. split; [exact Hrun |]. cbn [fs db].
  split; [apply lookup_insert_eq | reflexivity].
Qed.

(** X8.  On no request does the thumbnail handler touch the bucket, spawn
    a process or delete a file: every file that was on the disk is still
    there afterwards. *)
Theorem thumbnail_handler_only_adds_files cfg req (w : World) :
  let w' := snd (handlerUploadThumbnail cfg req w) in
  s3 w' = s3 w /\
  uploads_of (trace w') = uploads_of (trace w) /\
  spawns_of (trace w') = spawns_of (trace w) /\
  deletes_of (trace w') = deletes_of (trace w) /\
  (forall p, is_Some (fs w !! p) -> is_Some (fs w' !! p)).
Proof.
  cbn zeta.
  destruct (handlerUploadThumbnail_cases cfg req w)
    as [[e Hrun] | [(e & args & Hrun) | (videoId & video & file & Hpass)]].
  - rewrite Hrun. cbn. auto.
  - rewrite Hrun. cbn. unfold uploads_of, spawns_of, deletes_of.
    rewrite !omap_app. cbn. rewrite !app_nil_r. auto.
  - rewrite (handlerUploadThumbnail_outcome _ _ _ _ _ _ Hpass). cbn zeta.
    unfold uploads_of, spawns_of, deletes_of.
    destruct (disk_fault (faults w)); cbn; rewrite !omap_app; cbn;
      rewrite !app_nil_r; repeat split; auto.
    intros p Hp. rewrite lookup_insert. case_decide; [eauto | exact Hp].
Qed.

(** X9.  A request without a video id, or with an empty one, is refused
    by each handler with BadRequest [Invalid video ID], status 400, before
    the token is looked at and without any effect. *)
Theorem missing_video_id_is_refused_first cfg req (w : World) :
  params_videoId req = None \/ params_videoId req = Some "" ->
  let refused := BadRequestError "Invalid video ID" in
  http_status refused = 400 /\
  handlerUploadThumbnail cfg req w = (Throw refused, w) /\
  handlerUploadVideo cfg req w = (Throw refused, w) /\
  handlerUploadVideo2 cfg req w = (Throw refused, w).
Proof.
  intros Hid refused.
  unfold handlerUploadThumbnail, handlerUploadVideo, handlerUploadVideo2, bind,
    require_videoId.
  destruct Hid as [-> | ->]; cbn; auto.
Qed.

(** X10.  When the token verifies but the database has no record for the
    video id, each handler fails with NotFound [Couldn't find video], status
    404, and has written nothing (the thumbnail handler has printed its log
    line). *)
Theorem unknown_video_is_not_found cfg req (w : World) videoId userId :
  identified cfg req videoId userId ->
  getVideo (db w) videoId = None ->
  let unknown := NotFoundError "Couldn't find video" in
  http_status unknown = 404 /\
  handlerUploadThumbnail cfg req w =
    (Throw unknown,
     mkWorld (fs w) (s3 w) (db w) (faults w)
       (trace w ++ [ConsoleLog ["uploading thumbnail for video"; videoId;
                                "by user"; userId]])) /\
  handlerUploadVideo cfg req w = (Throw unknown, w) /\
  handlerUploadVideo2 cfg req w = (Throw unknown, w).
Proof.
  intros Hident Hget unknown.
  split; [reflexivity |]. split; [| split].
  - unfold handlerUploadThumbnail.
    rewrite (identified_run cfg req videoId userId w _ Hident).
    rewrite console_log_run, db_getVideo_run. cbn [db]. now rewrite Hget.
  - unfold handlerUploadVideo.
    rewrite (identified_run cfg req videoId userId w _ Hident).
    now rewrite db_getVideo_run, Hget.
  - unfold handlerUploadVideo2.
    rewrite (identified_run cfg req videoId userId w _ Hident).
    now rewrite db_getVideo_run, Hget.
Qed.

(** X11.  No effect without the checks: if a handler returns a response,
    or leaves the disk, the bucket or the database different, or has made
    any writing call, then the request passed every check of that handler;
    in particular its token verified as the owner of the record. *)
Theorem effects_need_the_checks cfg req (w : World) r w' :
  let changed :=
    (exists resp, r = Ok resp) \/ fs w' <> fs w \/ s3 w' <> s3 w \/ db w' <> db w \/
    List.filter is_write (trace w') <> List.filter is_write (trace w) in
  (handlerUploadThumbnail cfg req w = (r, w') -> changed ->
   exists videoId video file, passes_thumbnail_checks cfg req w videoId video file) /\
  (handlerUploadVideo cfg req w = (r, w') -> changed ->
   exists videoId video file, passes_video_checks cfg req w videoId video file) /\
  (handlerUploadVideo2 cfg req w = (r, w') -> changed ->
   exists videoId video file, passes_video_checks cfg req w videoId video file).
Proof.
  cbn zeta.
  assert (unchanged : forall e,
    ~ ((exists resp, Throw (A := Response) e = Ok resp) \/ fs w <> fs w \/
       s3 w <> s3 w \/ db w <> db w \/
       List.filter is_write (trace w) <> List.filter is_write (trace w))).
  { intros e [[resp [=]] | [H | [H | [H | H]]]]; now apply H. }
  split; [| split]; intros Hrun Hchanged.
  - destruct (handlerUploadThumbnail_cases cfg req w)
      as [[e He] | [(e & args & He) | Hpass]]; [| | exact Hpass].
    + rewrite He in Hrun. injection Hrun as <- <-. now destruct (unchanged e).
    + rewrite He in Hrun. injection Hrun as <- <-. cbn in Hchanged.
      rewrite List.filter_app in Hchanged. cbn in Hchanged.
      rewrite app_nil_r in Hchanged. now destruct (unchanged e).
  - destruct (handlerUploadVideo_cases cfg req w) as [[e He] | Hpass];
      [| exact Hpass].
    rewrite He in Hrun. injection Hrun as <- <-. now destruct (unchanged e).
  - destruct (handlerUploadVideo2_cases cfg req w) as [[e He] | Hpass];
      [| exact Hpass].
    rewrite He in Hrun. injection Hrun as <- <-. now destruct (unchanged e).
Qed.

(** X12.  For the owner of the record, a form whose first entry under the
    expected name is missing or is a text value, not a file, is refused with
    BadRequest ([Video file missing], [Thumbnail file missing]) before
    anything is written. *)
Theorem form_without_file_is_refused cfg req (w : World) videoId video fd :
  authorised cfg req w videoId video ->
  body req = Some fd ->
  let no_file (name : string) :=
    formData_get fd name = None \/ exists s, formData_get fd name = Some (FormString s) in
  (no_file "video" ->
   handlerUploadVideo cfg req w = (Throw (BadRequestError "Video file missing"), w) /\
   handlerUploadVideo2 cfg req w = (Throw (BadRequestError "Video file missing"), w)) /\
  (no_file "thumbnail" ->
   fst (handlerUploadThumbnail cfg req w)
   = Throw (BadRequestError "Thumbnail file missing") /\
   List.filter is_write (trace (snd (handlerUploadThumbnail cfg req w)))
   = List.filter is_write (trace w) /\
   fs (snd (handlerUploadThumbnail cfg req w)) = fs w).
Proof.
  intros (Hident & Hget) Hbody. cbn zeta.
  split; intros Hno.
  - assert (Hmiss : forall e, require_file fd "video" e w = (Throw e, w)).
    { intros e. unfold require_file, throw.
      destruct Hno as [-> | [s ->]]; reflexivity. }
    split.
    + unfold handlerUploadVideo.
      rewrite (identified_run cfg req videoId (userID video) w _ Hident).
      rewrite db_getVideo_run, Hget.
      rewrite throwIf_false_run by now rewrite String.eqb_refl.
      unfold bind, req_formData, ret. rewrite Hbody, Hmiss. reflexivity.
    + unfold handlerUploadVideo2.
      rewrite (identified_run cfg req videoId (userID video) w _ Hident).
      rewrite db_getVideo_run, Hget.
      rewrite throwIf_false_run by now rewrite String.eqb_refl.
      unfold bind, req_formData, ret. rewrite Hbody, Hmiss. reflexivity.
  - unfold handlerUploadThumbnail.
    rewrite (identified_run cfg req videoId (userID video) w _ Hident).
    rewrite console_log_run, db_getVideo_run. cbn [db]. rewrite Hget.
    rewrite throwIf_false_run by now rewrite String.eqb_refl.
    unfold bind, req_formData, require_file, throw, ret. rewrite Hbody.
    destruct Hno as [-> | [s ->]]; cbn; rewrite List.filter_app; cbn;
      rewrite app_nil_r; auto.
Qed.

(** X13.  For the owner of the record and a form with a file in the field
    [video], each video handler fails with the BadRequest of its size check
    exactly when the size of the file exceeds 1 GiB (2^30 bytes), whatever
    the declared media type; a file of exactly 1 GiB passes the check. *)
Theorem video_size_check cfg req (w : World) videoId video file :
  authorised cfg req w videoId video ->
  carries_file req "video" file ->
  let too_big := BadRequestError "Video file size must be < 1GB" in
  (fst (handlerUploadVideo cfg req w) = Throw too_big <-> file_size file > 2 ^ 30) /\
  (fst (handlerUploadVideo2 cfg req w) = Throw too_big <-> file_size file > 2 ^ 30) /\
  http_status too_big = 400.
Proof.
  intros Hauth Hfile too_big.
  destruct (Z.gtb_spec (file_size file) (js_shl 1 30)) as [Hbig|Hsmall].
  - destruct Hauth as (Hident & Hget).
    assert (H1 : handlerUploadVideo cfg req w = (Throw too_big, w)).
    { unfold handlerUploadVideo.
      rewrite (identified_run cfg req videoId (userID video) w _ Hident).
      rewrite db_getVideo_run, Hget.
      rewrite throwIf_false_run by now rewrite String.eqb_refl.
      rewrite (carries_file_run req "video" file _ w _ Hfile).
      apply throwIf_true_run. now apply Z.gtb_lt. }
    assert (H2 : handlerUploadVideo2 cfg req w = (Throw too_big, w)).
    { unfold handlerUploadVideo2.
      rewrite (identified_run cfg req videoId (userID video) w _ Hident).
      rewrite db_getVideo_run, Hget.
      rewrite throwIf_false_run by now rewrite String.eqb_refl.
      rewrite (carries_file_run req "video" file _ w _ Hfile).
      apply throwIf_true_run. now apply Z.gtb_lt. }
    rewrite H1, H2, video_limit in *. cbn. repeat split; auto; lia.
  - rewrite video_limit in Hsmall.
    destruct (video_checks_or_type_refusal _ _ _ _ _ _ Hauth Hfile Hsmall)
      as [(msg & H1 & H2 & Hmsg) | Hpass].
    + rewrite H1, H2. cbn.
      split; [| split; [| reflexivity]]; (split; [| lia]);
        intros [= ->]; destruct Hmsg as [[=] | [=]].
    + pose proof (video_handlers_past_checks _ _ _ _ _ _ Hpass) as [Hn1 Hn2].
      split; [| split; [| reflexivity]]; (split; [| lia]); intros Hthrow; exfalso.
      * now apply (Hn1 "Video file size must be < 1GB").
      * now apply (Hn2 "Video file size must be < 1GB").
Qed.

(** X14.  A video upload that passes the checks succeeds when disk and
    database work and the classifier returns a label for the temporary
    file.  The calls are made in this order: write the temporary file, spawn
    the probe, send the object under [label/filename], delete the temporary
    file, update the record.  The answer is 200 with the record carrying the
    new video URL, that record is stored, and the disk ends as it began
    except that nothing is left at the temporary path. *)
Theorem video_upload_succeeds cfg req (w : World) videoId video file label :
  passes_video_checks cfg req w videoId video file ->
  disk_fault (faults w) = None ->
  persist_fault (faults w) = None ->
  let path := video_temp_path cfg videoId in
  fst (getVideoAspectRatio path (snd (Bun_write path file w))) = Ok label ->
  let key := label ++ "/" ++ video_filename videoId in
  let obj := mkS3Object key (s3Bucket cfg) path "video/mp4" in
  let video' := set_videoURL (getS3AssetURL cfg key) video in
  exists w',
    handlerUploadVideo cfg req w = (Ok (respondWithJSON 200 video'), w') /\
    trace w' = (trace w ++ [BunWrite path; BunSpawn (ffprobe_argv path);
                            S3Write obj; FileDelete path; UpdateVideo video'])%list /\
    db w' = updateVideo (db w) video' /\
    fs w' = delete path (fs w) /\
    (fs w !! path = None -> fs w' = fs w) /\
    (upload_fault (faults w) = None -> s3 w' = (s3 w ++ [obj])%list).
Proof.
  intros Hpass Hdisk Hper path Hprobe key obj video'.
  pose proof (handlerUploadVideo_outcome _ _ _ _ _ _ Hpass Hdisk) as Hout.
  cbn zeta in Hout. fold path in Hout. rewrite Hprobe, Hper in Hout.
  eexists. split; [exact Hout |]. cbn [trace db fs s3].
  split; [reflexivity |]. split; [reflexivity |].
  split; [apply delete_insert_eq |].
  split.
  - intros Hnone. rewrite delete_insert_eq. now apply delete_id.
  - intros ->. reflexivity.
Qed.

(** X15.  A failed bucket upload goes unnoticed: the write is not awaited,
    so the handler still answers 200 and stores a video URL for an object
    that is not in the bucket. *)
Theorem failed_upload_goes_unnoticed
    cfg req (w : World) videoId video file label msg :
  passes_video_checks cfg req w videoId video file ->
  disk_fault (faults w) = None ->
  persist_fault (faults w) = None ->
  upload_fault (faults w) = Some msg ->
  let path := video_temp_path cfg videoId in
  fst (getVideoAspectRatio path (snd (Bun_write path file w))) = Ok label ->
  let url := getS3AssetURL cfg (label ++ "/" ++ video_filename videoId) in
  exists resp w',
    handlerUploadVideo cfg req w = (Ok resp, w') /\
    status resp = 200 /\
    videoURL (payload resp) = Some url /\
    db w' = updateVideo (db w) (payload resp) /\
    s3 w' = s3 w.
Proof.
  intros Hpass Hdisk Hper Hup path Hprobe url.
  pose proof (handlerUploadVideo_outcome _ _ _ _ _ _ Hpass Hdisk) as Hout.
  cbn zeta in Hout. fold path in Hout. rewrite Hprobe, Hper, Hup in Hout.
  eexists. eexists. split; [exact Hout |]. cbn. auto.
Qed.

(** X16.  When the database refuses the update after the object was sent,
    the handler fails with that error, the record keeps its old video URL
    and the object stays in the bucket with nothing pointing to it; the
    temporary file is gone. *)
Theorem failed_update_leaves_the_object
    cfg req (w : World) videoId video file label msg :
  passes_video_checks cfg req w videoId video file ->
  disk_fault (faults w) = None ->
  upload_fault (faults w) = None ->
  persist_fault (faults w) = Some msg ->
  let path := video_temp_path cfg videoId in
  fst (getVideoAspectRatio path (snd (Bun_write path file w))) = Ok label ->
  let key := label ++ "/" ++ video_filename videoId in
  exists w',
    handlerUploadVideo cfg req w = (Throw (SystemError msg), w') /\
    db w' = db w /\
    s3 w' = (s3 w ++ [mkS3Object key (s3Bucket cfg) path "video/mp4"])%list /\
    fs w' !! path = None.
Proof.
  intros Hpass Hdisk Hup Hper path Hprobe key.
  pose proof (handlerUploadVideo_outcome _ _ _ _ _ _ Hpass Hdisk) as Hout.
  cbn zeta in Hout. fold path in Hout. rewrite Hprobe, Hper, Hup in Hout.
  eexists. split; [exact Hout |]. cbn [db s3 fs].
  split; [reflexivity |]. split; [reflexivity |]. apply lookup_delete_eq.
Qed.

(** X17.  When the disk refuses the write, each handler fails with that
    error right there: disk, bucket and database are as before, no probe was
    spawned, nothing was sent to the bucket and no record was passed to
    [updateVideo]. *)
Theorem failed_write_stops_the_upload cfg req (w : World) msg :
  disk_fault (faults w) = Some msg ->
  let stopped (run : result Response * World) :=
    fst run = Throw (SystemError msg) /\
    fs (snd run) = fs w /\ s3 (snd run) = s3 w /\ db (snd run) = db w /\
    spawns_of (trace (snd run)) = spawns_of (trace w) /\
    uploads_of (trace (snd run)) = uploads_of (trace w) /\
    updates_of (trace (snd run)) = updates_of (trace w) in
  ((exists videoId video file, passes_thumbnail_checks cfg req w videoId video file) ->
   stopped (handlerUploadThumbnail cfg req w)) /\
  ((exists videoId video file, passes_video_checks cfg req w videoId video file) ->
   stopped (handlerUploadVideo cfg req w) /\ stopped (handlerUploadVideo2 cfg req w)).
Proof.
  intros Hdisk. cbn zeta. unfold spawns_of, uploads_of, updates_of.
  split.
  - intros (videoId & video & file & Hpass).
    rewrite (handlerUploadThumbnail_outcome _ _ _ _ _ _ Hpass). cbn zeta.
    rewrite Hdisk. cbn. rewrite !omap_app. cbn. rewrite !app_nil_r. auto 10.
  - intros (videoId & video & file & Hpass).
    rewrite (handlerUploadVideo_disk_fault _ _ _ _ _ _ _ Hpass Hdisk).
    rewrite (handlerUploadVideo2_disk_fault _ _ _ _ _ _ _ Hpass Hdisk).
    cbn. rewrite !omap_app. cbn. rewrite !app_nil_r. auto 20.
Qed.

(** X18.  The second variant of the video handler does not ask the
    classifier: a request that passes the checks succeeds whenever disk and
    database work, also when the probe rejects the file, in which case the
    first variant fails with the classifier's error. *)
Theorem second_variant_uploads_unprobed cfg req (w : World) videoId video file :
  passes_video_checks cfg req w videoId video file ->
  disk_fault (faults w) = None ->
  persist_fault (faults w) = None ->
  let path := video_temp_path cfg videoId in
  let video' := set_videoURL (getS3AssetURL cfg (video_filename videoId)) video in
  (exists w',
      handlerUploadVideo2 cfg req w = (Ok (respondWithJSON 200 video'), w') /\
      db w' = updateVideo (db w) video' /\
      fs w' !! path = None) /\
  (forall e,
      fst (getVideoAspectRatio path (snd (Bun_write path file w))) = Throw e ->
      fst (handlerUploadVideo cfg req w) = Throw e).
Proof.
  intros Hpass Hdisk Hper path video'. split.
  - pose proof (handlerUploadVideo2_outcome _ _ _ _ _ _ Hpass Hdisk) as Hout.
    cbn zeta in Hout. rewrite Hper in Hout.
    eexists. split; [exact Hout |]. cbn [db fs].
    split; [reflexivity | apply lookup_delete_eq].
  - intros e Hprobe.
    pose proof (handlerUploadVideo_outcome _ _ _ _ _ _ Hpass Hdisk) as Hout.
    cbn zeta in Hout. fold path in Hout. rewrite Hprobe in Hout.
    now rewrite Hout.
Qed.

(** X19.  On every request that does not pass the checks the two variants
    of the video handler do the same: they throw the same error and leave
    the world as it was. *)
Theorem variants_refuse_alike cfg req (w : World) :
  ~ (exists videoId video file, passes_video_checks cfg req w videoId video file) ->
  exists e,
    handlerUploadVideo cfg req w = (Throw e, w) /\
    handlerUploadVideo2 cfg req w = (Throw e, w).
Proof.
  intros Hnot.
  unfold handlerUploadVideo, handlerUploadVideo2, bind, require_videoId, lift,
    db_getVideo, throwIf, req_formData, require_file, throw, ret.
  destruct (params_videoId req) as [videoId|] eqn:Hid; [| eauto].
  destruct (String.eqb_spec videoId "") as [|Hne]; [eauto |].
  destruct (getBearerToken (headers req)) as [token|e] eqn:Htok; [| eauto].
  destruct (validateJWT token (jwtSecret cfg)) as [userId|e] eqn:Hjwt; [| eauto].
  destruct (getVideo (db w) videoId) as [video|] eqn:Hget; [| eauto].
  destruct (String.eqb_spec (userID video) userId) as [<-|Hown]; [| eauto].
  destruct (body req) as [fd|] eqn:Hbody; [| eauto].
  destruct (formData_get fd "video") as [[s|file]|] eqn:Hfile; [eauto | | eauto].
  destruct (Z.gtb_spec (file_size file) (js_shl 1 30)) as [Hbig|Hsize]; [eauto |].
  destruct (String.eqb_spec (file_type file) "") as [|Hty]; [eauto |].
  destruct (String.eqb_spec (file_type file) "video/mp4") as [Hmp4|Hmp4]; [| eauto].
  exfalso. apply Hnot. exists videoId, video, file.
  rewrite video_limit in Hsize.
  unfold passes_video_checks, authorised, identified, carries_file.
  eauto 12.
Qed.

(** X20.  The two handlers share the asset directory.  A thumbnail declared
    as [video/mp4] is written to [videoId] plus the extension of that type,
    which is where the video handler keeps its temporary file: the next
    successful video upload for the same video deletes the thumbnail file,
    while the record it stores still carries the thumbnail URL. *)
Theorem video_upload_deletes_mp4_thumbnail
    cfg req1 req2 (w : World) resp1 w1 resp2 w2 videoId thumb :
  params_videoId req1 = Some videoId ->
  params_videoId req2 = Some videoId ->
  carries_file req1 "thumbnail" thumb ->
  file_type thumb = "video/mp4" ->
  handlerUploadThumbnail cfg req1 w = (Ok resp1, w1) ->
  getVideo (db w1) videoId = Some (payload resp1) ->
  handlerUploadVideo cfg req2 w1 = (Ok resp2, w2) ->
  let path := video_temp_path cfg videoId in
  fs w1 !! path = Some (file_data thumb) /\
  thumbnailURL (payload resp1) = Some (getAssetURL cfg (video_filename videoId)) /\
  fs w2 !! path = None /\
  thumbnailURL (payload resp2) = Some (getAssetURL cfg (video_filename videoId)) /\
  db w2 = updateVideo (db w1) (payload resp2).
Proof.
  intros Hid1 Hid2 (fd & Hbody & Hthumb) Htype Hrun1 Hstored Hrun2 path.
  apply handlerUploadThumbnail_Ok in Hrun1
    as (videoId1 & video1 & file1 & Hpass1 & Hrun1).
  cbn zeta in Hrun1. destruct Hrun1 as (-> & ->).
  destruct Hpass1 as (((Hid1' & _) & _) & (fd1 & Hbody1 & Hfile1) & _).
  rewrite Hid1 in Hid1'. injection Hid1' as <-.
  rewrite Hbody in Hbody1. injection Hbody1 as <-.
  rewrite Hthumb in Hfile1. injection Hfile1 as <-.
  rewrite Htype in *.
  apply handlerUploadVideo_Ok in Hrun2
    as (videoId2 & video2 & file2 & label & Hpass2 & _ & _ & Hrun2).
  cbn zeta in Hrun2. destruct Hrun2 as (_ & -> & ->).
  destruct Hpass2 as (((Hid2' & _) & Hget2) & _).
  rewrite Hid2 in Hid2'. injection Hid2' as <-.
  cbn [db] in Hget2, Hstored. rewrite Hstored in Hget2. injection Hget2 as <-.
  unfold path, video_temp_path, video_filename. cbn.
  split; [apply lookup_insert_eq |]. split; [reflexivity |].
  split; [apply lookup_delete_eq |]. auto.
Qed.
(** X22.  When the classifier throws on the uploaded file, the first
    variant of the video handler ends with the classifier's error right
    after the write and the probe: nothing is deleted, nothing is sent to
    the bucket, the database is not updated, and the uploaded bytes are
    on the disk at the temporary path. *)
Theorem failed_probe_leaves_the_upload
    cfg req (w : World) videoId video file e :
  passes_video_checks cfg req w videoId video file ->
  disk_fault (faults w) = None ->
  let path := video_temp_path cfg videoId in
  fst (getVideoAspectRatio path (snd (Bun_write path file w))) = Throw e ->
  exists w',
    handlerUploadVideo cfg req w = (Throw e, w') /\
    trace w' = (trace w ++ [BunWrite path; BunSpawn (ffprobe_argv path)])%list /\
    fs w' = <[path := file_data file]> (fs w) /\
    fs w' !! path = Some (file_data file) /\
    s3 w' = s3 w /\ db w' = db w.
Proof.
  intros Hpass Hdisk path Hprobe.
  pose proof (handlerUploadVideo_outcome _ _ _ _ _ _ Hpass Hdisk) as Hout.
  cbn zeta in Hout. fold path in Hout. rewrite Hprobe in Hout.
  eexists. split; [exact Hout |].
  unfold spawned, Bun_write, bind, emit. cbn. rewrite Hdisk. cbn.
  rewrite <- app_assoc. cbn.
  split; [reflexivity |]. split; [reflexivity |].
  split; [apply lookup_insert_eq | auto].
Qed.
End HandlerExtras.

(* ===================================================================== *)
(** ** The further statements on the concrete platforms                   *)
(* ===================================================================== *)

(** X1 on 1920x1080. *)
Lemma labels_are_sixteen_ninths_bounds_witness :
  aspectRatioOf 1920 1080 = "landscape" <->
  9 * 1920 <= 16 * 1080 < 9 * 1920 + 9.
Proof.
  apply (labels_are_sixteen_ninths_bounds 1920 1080); lia.
Defined.

(** X2 on 1920x1080. *)
Lemma swapped_dimensions_swap_labels_witness :
  aspectRatioOf 1920 1080 = "landscape" <-> aspectRatioOf 1080 1920 = "portrait".
Proof.
  apply (swapped_dimensions_swap_labels 1920 1080); lia.
Defined.

(** X21 on 1080, where [16 * 1080 / 9] is 1920. *)
Lemma floor_on_doubles_is_exact_in_range_witness :
  floor_16_ninths_binary64 1080 = Some (16 * 1080 / 9).
Proof.
  apply (proj1 floor_on_doubles_is_exact_in_range 1080). lia.
Defined.

(** X3 on 1280x720. *)
Lemma double_rounding_keeps_the_label_witness :
  aspectRatioOf_binary64 1280 720 = Some (label_rule 1280 720).
Proof.
  apply (double_rounding_keeps_the_label 1280 720); lia.
Defined.

(** X5 on a clip with a second stream and a clip without. *)
Lemma only_the_first_stream_counts_witness :
  fst (getVideoAspectRatio (P := Lab.platform) "/a.mp4" Lab.two_clips)
  = fst (getVideoAspectRatio (P := Lab.platform) "/b.mp4" Lab.two_clips).
Proof.
  apply (only_the_first_stream_counts (P := Lab.platform)
           "/a.mp4" Lab.two_clips "/b.mp4" Lab.two_clips
           (mkProbe (Some [mkStream (Some 1920) (Some 1080)]))
           (mkProbe (Some [mkStream (Some 1920) (Some 1080); mkStream None None])));
    vm_compute; reflexivity.
Defined.

Lemma demo_thumbnail_passes pending :
  passes_thumbnail_checks (P := Demo.platform) Demo.cfg
    (Demo.alice_uploads_thumbnail 3) (Demo.world pending) "v1"
    Demo.alices_video Lab.picture.
Proof. demo_checks. Qed.

Lemma demo_junk_passes pending :
  passes_video_checks (P := Demo.platform) Demo.cfg Demo.alice_uploads_junk
    (Demo.world pending) "v1" Demo.alices_video Lab.junk.
Proof. demo_checks. Qed.

Lemma demo_alice_identified req_field type content size :
  identified (P := Demo.platform) Demo.cfg
    (Demo.upload "s3cr3t.alice" req_field type content size) "v1" "alice".
Proof. demo_checks. Qed.

(** X6 on Alice's thumbnail. *)
Lemma thumbnail_upload_succeeds_witness :
  exists w',
    handlerUploadThumbnail (P := Demo.platform) Demo.cfg
      (Demo.alice_uploads_thumbnail 3) (Demo.world no_faults)
    = (Ok (respondWithJSON 200
             (set_thumbnailURL "http://localhost:8091/assets/v1.png"
                Demo.alices_video)), w') /\
    fs w' !! "/srv/assets/v1.png" = Some "PNG".
Proof.
  destruct (thumbnail_upload_succeeds (P := Demo.platform) Demo.cfg
              (Demo.alice_uploads_thumbnail 3) (Demo.world no_faults) "v1"
              Demo.alices_video Lab.picture (demo_thumbnail_passes no_faults)
              eq_refl eq_refl)
    as (w' & Hrun & Hfile & _).
  exists w'. split; [exact Hrun | exact Hfile].
Defined.

(** X7 on Alice's thumbnail and a database that is locked. *)
Lemma thumbnail_kept_when_update_fails_witness :
  exists w',
    handlerUploadThumbnail (P := Demo.platform) Demo.cfg
      (Demo.alice_uploads_thumbnail 3)
      (Demo.world (mkFaults None None (Some "database is locked")))
    = (Throw (SystemError "database is locked"), w') /\
    fs w' !! "/srv/assets/v1.png" = Some "PNG" /\
    db w' = [Demo.alices_video].
Proof.
  exact (thumbnail_kept_when_update_fails (P := Demo.platform) Demo.cfg
           (Demo.alice_uploads_thumbnail 3)
           (Demo.world (mkFaults None None (Some "database is locked"))) "v1"
           Demo.alices_video Lab.picture "database is locked"
           (demo_thumbnail_passes _) eq_refl eq_refl).
Defined.

(** X9 on a request without a video id. *)
Lemma missing_video_id_is_refused_first_witness :
  handlerUploadVideo (P := Demo.platform) Demo.cfg Lab.without_id
    (Demo.world no_faults)
  = (Throw (BadRequestError "Invalid video ID"), Demo.world no_faults).
Proof.
  apply (missing_video_id_is_refused_first (P := Demo.platform) Demo.cfg
           Lab.without_id (Demo.world no_faults)).
  left. reflexivity.
Defined.

(** X10 on a request for a video the database does not have. *)
Lemma unknown_video_is_not_found_witness :
  handlerUploadVideo (P := Demo.platform) Demo.cfg Lab.for_unknown_video
    (Demo.world no_faults)
  = (Throw (NotFoundError "Couldn't find video"), Demo.world no_faults).
Proof.
  apply (unknown_video_is_not_found (P := Demo.platform) Demo.cfg
           Lab.for_unknown_video (Demo.world no_faults) "v2" "alice").
  - demo_checks.
  - reflexivity.
Defined.

(** X11 on Alice's clip: it went through, so it passed the checks. *)
Lemma effects_need_the_checks_witness :
  exists videoId video file,
    passes_video_checks (P := Demo.platform) Demo.cfg Demo.alice_uploads_clip
      (Demo.world no_faults) videoId video file.
Proof.
  apply (proj1 (proj2 (effects_need_the_checks (P := Demo.platform) Demo.cfg
                         Demo.alice_uploads_clip (Demo.world no_faults) _ _))
           demo_alice_run).
  left. eexists. reflexivity.
Defined.

(** X12 on a form with a text value before the file. *)
Lemma form_without_file_is_refused_witness :
  handlerUploadVideo (P := Demo.platform) Demo.cfg Lab.with_text_before_file
    (Demo.world no_faults)
  = (Throw (BadRequestError "Video file missing"), Demo.world no_faults).
Proof.
  apply (form_without_file_is_refused (P := Demo.platform) Demo.cfg
           Lab.with_text_before_file (Demo.world no_faults) "v1"
           Demo.alices_video Lab.text_before_file).
  - demo_checks.
  - reflexivity.
  - right. exists "clip". reflexivity.
Defined.

(** X13 on a picture of 1 GiB and one byte: the size is refused, not the
    media type. *)
Lemma video_size_check_witness :
  fst (handlerUploadVideo (P := Demo.platform) Demo.cfg Lab.with_huge_picture
         (Demo.world no_faults))
  = Throw (BadRequestError "Video file size must be < 1GB").
Proof.
  apply (video_size_check (P := Demo.platform) Demo.cfg Lab.with_huge_picture
           (Demo.world no_faults) "v1" Demo.alices_video Lab.huge_picture).
  - apply demo_alice_authorised.
  - eexists; split; reflexivity.
  - cbn. lia.
Defined.

(** X14 on Alice's clip. *)
Lemma video_upload_succeeds_witness :
  exists w',
    handlerUploadVideo (P := Demo.platform) Demo.cfg Demo.alice_uploads_clip
      (Demo.world no_faults)
    = (Ok (respondWithJSON 200 (set_videoURL Demo.landscape_url Demo.alices_video)),
       w') /\
    fs w' = fs (Demo.world no_faults).
Proof.
  destruct (video_upload_succeeds (P := Demo.platform) Demo.cfg
              Demo.alice_uploads_clip (Demo.world no_faults) "v1"
              Demo.alices_video Demo.clip "landscape"
              (demo_alice_passes no_faults) eq_refl eq_refl)
    as (w' & Hrun & _ & _ & _ & Hsame & _).
  - vm_compute. reflexivity.
  - exists w'. split; [exact Hrun |]. apply Hsame. reflexivity.
Defined.

(** X15 on Alice's clip and a bucket that is unreachable. *)
Lemma failed_upload_goes_unnoticed_witness :
  exists resp w',
    handlerUploadVideo (P := Demo.platform) Demo.cfg Demo.alice_uploads_clip
      (Demo.world (mkFaults None (Some "bucket unreachable") None))
    = (Ok resp, w') /\
    status resp = 200 /\
    videoURL (payload resp) = Some Demo.landscape_url /\
    db w' = [payload resp] /\
    s3 w' = [].
Proof.
  destruct (failed_upload_goes_unnoticed (P := Demo.platform) Demo.cfg
              Demo.alice_uploads_clip
              (Demo.world (mkFaults None (Some "bucket unreachable") None)) "v1"
              Demo.alices_video Demo.clip "landscape" "bucket unreachable"
              (demo_alice_passes _) eq_refl eq_refl eq_refl)
    as (resp & w' & Hrun & Hstatus & Hurl & Hdb & Hs3).
  - vm_compute. reflexivity.
  - exists resp, w'. rewrite Hdb. repeat split; try assumption.
    destruct resp as [code [vid owner thumb url cols]]. cbn in *.
    vm_compute in Hrun. injection Hrun as <- <- <- <- <- <- <-.
    vm_compute. reflexivity.
Defined.

(** X16 on Alice's clip and a database that is locked. *)
Lemma failed_update_leaves_the_object_witness :
  exists w',
    handlerUploadVideo (P := Demo.platform) Demo.cfg Demo.alice_uploads_clip
      (Demo.world (mkFaults None None (Some "database is locked")))
    = (Throw (SystemError "database is locked"), w') /\
    db w' = [Demo.alices_video] /\
    s3 w' = [mkS3Object "landscape/v1.mp4" "tubely-bucket" Demo.temp_path
               "video/mp4"] /\
    fs w' !! Demo.temp_path = None.
Proof.
  apply (failed_update_leaves_the_object (P := Demo.platform) Demo.cfg
           Demo.alice_uploads_clip
           (Demo.world (mkFaults None None (Some "database is locked"))) "v1"
           Demo.alices_video Demo.clip "landscape" "database is locked"
           (demo_alice_passes _) eq_refl eq_refl eq_refl).
  vm_compute. reflexivity.
Defined.

(** X17 on Alice's clip and a disk that is full. *)
Lemma failed_write_stops_the_upload_witness :
  handlerUploadVideo (P := Demo.platform) Demo.cfg Demo.alice_uploads_clip
    (Demo.world (mkFaults (Some "disk full") None None))
  = (Throw (SystemError "disk full"),
     snd (handlerUploadVideo (P := Demo.platform) Demo.cfg Demo.alice_uploads_clip
            (Demo.world (mkFaults (Some "disk full") None None)))) /\
  fs (snd (handlerUploadVideo (P := Demo.platform) Demo.cfg Demo.alice_uploads_clip
             (Demo.world (mkFaults (Some "disk full") None None)))) = ∅.
Proof.
  destruct (proj2 (failed_write_stops_the_upload (P := Demo.platform) Demo.cfg
                     Demo.alice_uploads_clip
                     (Demo.world (mkFaults (Some "disk full") None None))
                     "disk full" eq_refl))
    as ((Hthrow & Hfs & _) & _).
  - exists "v1", Demo.alices_video, Demo.clip. apply demo_alice_passes.
  - split; [| exact Hfs].
    rewrite <- Hthrow. apply surjective_pairing.
Defined.

(** X18 on something that is no video: the second variant stores it, the
    first refuses it. *)
Lemma second_variant_uploads_unprobed_witness :
  (exists w',
      handlerUploadVideo2 (P := Demo.platform) Demo.cfg Demo.alice_uploads_junk
        (Demo.world no_faults)
      = (Ok (respondWithJSON 200 (set_videoURL Demo.plain_url Demo.alices_video)),
         w')) /\
  fst (handlerUploadVideo (P := Demo.platform) Demo.cfg Demo.alice_uploads_junk
         (Demo.world no_faults))
  = Throw (JsError "Invalid data found when processing input").
Proof.
  destruct (second_variant_uploads_unprobed (P := Demo.platform) Demo.cfg
              Demo.alice_uploads_junk (Demo.world no_faults) "v1"
              Demo.alices_video Lab.junk (demo_junk_passes no_faults)
              eq_refl eq_refl)
    as ((w' & Hrun & _) & Hfirst).
  split.
  - exists w'. exact Hrun.
  - apply Hfirst. vm_compute. reflexivity.
Defined.

(** Bob's picture does not pass the checks of the video handlers. *)
Lemma demo_bob_does_not_pass :
  ~ (exists videoId video file,
        passes_video_checks (P := Demo.platform) Demo.cfg Demo.bob_uploads_picture
          (Demo.world no_faults) videoId video file).
Proof.
  intros (videoId & video & file & _ & (fd & Hbody & Hfile) & _ & Htype).
  injection Hbody as <-. injection Hfile as <-. discriminate.
Qed.

(** X19 on Bob's picture. *)
Lemma variants_refuse_alike_witness :
  exists e,
    handlerUploadVideo (P := Demo.platform) Demo.cfg Demo.bob_uploads_picture
      (Demo.world no_faults) = (Throw e, Demo.world no_faults) /\
    handlerUploadVideo2 (P := Demo.platform) Demo.cfg Demo.bob_uploads_picture
      (Demo.world no_faults) = (Throw e, Demo.world no_faults).
Proof.
  exact (variants_refuse_alike (P := Demo.platform) Demo.cfg
           Demo.bob_uploads_picture (Demo.world no_faults) demo_bob_does_not_pass).
Defined.

(** X20 on Alice's thumbnail declared as [video/mp4], followed by her clip. *)
Lemma video_upload_deletes_mp4_thumbnail_witness :
  let covered := set_thumbnailURL "http://localhost:8091/assets/v1.mp4"
                   Demo.alices_video in
  let w1 := snd (handlerUploadThumbnail (P := Demo.platform) Demo.cfg
                   Lab.with_mp4_thumbnail (Demo.world no_faults)) in
  let w2 := snd (handlerUploadVideo (P := Demo.platform) Demo.cfg
                   Demo.alice_uploads_clip w1) in
  fs w1 !! Demo.temp_path = Some "cover" /\
  fs w2 !! Demo.temp_path = None /\
  db w2 = [set_videoURL Demo.landscape_url covered].
Proof.
  cbn zeta.
  destruct (video_upload_deletes_mp4_thumbnail (P := Demo.platform) Demo.cfg
              Lab.with_mp4_thumbnail Demo.alice_uploads_clip
              (Demo.world no_faults)
              (respondWithJSON 200
                 (set_thumbnailURL "http://localhost:8091/assets/v1.mp4"
                    Demo.alices_video))
              (snd (handlerUploadThumbnail (P := Demo.platform) Demo.cfg
                      Lab.with_mp4_thumbnail (Demo.world no_faults)))
              (respondWithJSON 200
                 (set_videoURL Demo.landscape_url
                    (set_thumbnailURL "http://localhost:8091/assets/v1.mp4"
                       Demo.alices_video)))
              (snd (handlerUploadVideo (P := Demo.platform) Demo.cfg
                      Demo.alice_uploads_clip
                      (snd (handlerUploadThumbnail (P := Demo.platform) Demo.cfg
                              Lab.with_mp4_thumbnail (Demo.world no_faults)))))
              "v1" Lab.mp4_thumbnail)
    as (Hthumb & _ & Hgone & _ & Hdb).
  - reflexivity.
  - reflexivity.
  - eexists; split; reflexivity.
  - reflexivity.
  - vm_compute. reflexivity.
  - vm_compute. reflexivity.
  - vm_compute. reflexivity.
  - split; [exact Hthumb |]. split; [exact Hgone |].
    rewrite Hdb. vm_compute. reflexivity.
Defined.

(** X22 on what Alice uploads as a video and is none. *)
Lemma failed_probe_leaves_the_upload_witness :
  exists w',
    handlerUploadVideo (P := Demo.platform) Demo.cfg Demo.alice_uploads_junk
      (Demo.world no_faults)
    = (Throw (JsError "Invalid data found when processing input"), w') /\
    fs w' !! Demo.temp_path = Some "not a video".
Proof.
  destruct (failed_probe_leaves_the_upload (P := Demo.platform) Demo.cfg
              Demo.alice_uploads_junk (Demo.world no_faults) "v1"
              Demo.alices_video Lab.junk
              (JsError "Invalid data found when processing input")
              (demo_junk_passes no_faults) eq_refl)
    as (w' & Hrun & _ & _ & Hfile & _).
  { vm_compute. reflexivity. }
  exists w'. split; [exact Hrun | exact Hfile].
Defined.
